(** * loopy/target/c/c_execution.py: compiling C kernels and calling them
      through ctypes

    A shallow embedding of the three classes of the module,
    [CCompiler] (with its subclass [CppCompiler]), [CompiledCKernel] and
    [CKernelExecutor], together with the parts of Python, [ctypes], [cgen]
    and [pytools.memoize_method] that they rely on.

    Side effects (temporary directories, files, child processes, loading a
    shared library, calling native code) are recorded in a trace of events;
    exceptions are values of type [exn]. *)

From stdpp Require Import gmap strings list.
From Stdlib Require Import Ascii PrimFloat.

Open Scope string_scope.
Open Scope Z_scope.
Open Scope list_scope.

(* ------------------------------------------------------------------ *)
(** ** Python built-ins used by the module                              *)
(* ------------------------------------------------------------------ *)

(** Whitespace as [str.split()] understands it (ASCII part). *)
Definition is_space (c : Ascii.ascii) : bool :=
  let n := Ascii.nat_of_ascii c in
  (Nat.eqb n 32 || (Nat.leb 9 n && Nat.leb n 13))%bool.

Definition flush_word (cur : string) (rest : list string) : list string :=
  match cur with
  | EmptyString => rest
  | _ => cur :: rest
  end.

Fixpoint str_split_from (cur s : string) : list string :=
  match s with
  | EmptyString => flush_word cur []
  | String c s' =>
      if is_space c then flush_word cur (str_split_from EmptyString s')
      else str_split_from (cur +:+ String c EmptyString) s'
  end.

(** [s.split()] with no separator: the maximal runs of non-blank characters. *)
Definition str_split (s : string) : list string := str_split_from EmptyString s.

Definition starts_with_slash (s : string) : bool :=
  match s with
  | String c _ => Ascii.eqb c "/"%char
  | EmptyString => false
  end.

Fixpoint ends_with_slash (s : string) : bool :=
  match s with
  | EmptyString => false
  | String c EmptyString => Ascii.eqb c "/"%char
  | String _ s' => ends_with_slash s'
  end.

(** [os.path.join(a, b)] of posixpath, for two components. *)
Definition os_path_join (a b : string) : string :=
  if starts_with_slash b then b
  else if (String.eqb a "" || ends_with_slash a)%bool then a +:+ b
  else a +:+ "/" +:+ b.

(** Whether a string has a NUL character in it. *)
Fixpoint has_nul (s : string) : bool :=
  match s with
  | EmptyString => false
  | String c s' => (Nat.eqb (Ascii.nat_of_ascii c) 0 || has_nul s')%bool
  end.

(** [x or d] for an optional list: [None] and the empty list are false. *)
Definition list_or {A : Type} (o : option (list A)) (d : list A) : list A :=
  match o with
  | Some (x :: l) => x :: l
  | _ => d
  end.

(* ------------------------------------------------------------------ *)
(** ** numpy dtypes and the ctypes data types                           *)
(* ------------------------------------------------------------------ *)

Inductive dtype : Set :=
| np_bool | np_int8 | np_int16 | np_int32 | np_int64
| np_uint8 | np_uint16 | np_uint32 | np_uint64
| np_float32 | np_float64 | np_complex64 | np_complex128.

#[global] Instance dtype_eq_dec : EqDecision dtype := ltac:(solve_decision).

Definition dtype_code (d : dtype) : nat :=
  match d with
  | np_bool => 0 | np_int8 => 1 | np_int16 => 2 | np_int32 => 3 | np_int64 => 4
  | np_uint8 => 5 | np_uint16 => 6 | np_uint32 => 7 | np_uint64 => 8
  | np_float32 => 9 | np_float64 => 10 | np_complex64 => 11
  | np_complex128 => 12
  end%nat.

Definition dtype_of_code (n : nat) : dtype :=
  match n with
  | 0 => np_bool | 1 => np_int8 | 2 => np_int16 | 3 => np_int32 | 4 => np_int64
  | 5 => np_uint8 | 6 => np_uint16 | 7 => np_uint32 | 8 => np_uint64
  | 9 => np_float32 | 10 => np_float64 | 11 => np_complex64
  | _ => np_complex128
  end%nat.

#[global] Instance dtype_countable : Countable dtype :=
  inj_countable' dtype_code dtype_of_code ltac:(by intros []).

(** The fundamental data types of [ctypes], as on LP64 Linux, where
    [c_longlong] and [c_ulonglong] are the very objects [c_long] and
    [c_ulong]. *)
Inductive simple_ctype : Set :=
| c_bool | c_char | c_wchar | c_byte | c_ubyte | c_short | c_ushort
| c_int | c_uint | c_long | c_ulong
| c_float | c_double | c_longdouble
| c_char_p | c_wchar_p | c_void_p.

#[global] Instance simple_ctype_eq_dec : EqDecision simple_ctype :=
  ltac:(solve_decision).

(** What a parameter type can be: a fundamental type, [ctypes.POINTER(t)],
    or the one attribute of [ctypes] with a name in [c_] that is not a type,
    the function [c_buffer] (an alias of [create_string_buffer]). *)
Inductive ctype : Set :=
| Simple (t : simple_ctype)
| POINTER (t : ctype)
| c_buffer_function.

#[global] Instance ctype_eq_dec : EqDecision ctype := ltac:(solve_decision).

(** What the module namespace of [ctypes] binds under a name starting with
    [c_]; the long long, fixed-width and size names are aliases, here as on
    LP64 Linux. *)
Definition ctypes_namespace : list (string * ctype) :=
  [ ("c_bool", Simple c_bool); ("c_char", Simple c_char);
    ("c_wchar", Simple c_wchar);
    ("c_byte", Simple c_byte); ("c_ubyte", Simple c_ubyte);
    ("c_short", Simple c_short); ("c_ushort", Simple c_ushort);
    ("c_int", Simple c_int); ("c_uint", Simple c_uint);
    ("c_long", Simple c_long); ("c_ulong", Simple c_ulong);
    ("c_longlong", Simple c_long); ("c_ulonglong", Simple c_ulong);
    ("c_float", Simple c_float); ("c_double", Simple c_double);
    ("c_longdouble", Simple c_longdouble);
    ("c_char_p", Simple c_char_p); ("c_wchar_p", Simple c_wchar_p);
    ("c_void_p", Simple c_void_p); ("c_voidp", Simple c_void_p);
    ("c_int8", Simple c_byte); ("c_uint8", Simple c_ubyte);
    ("c_int16", Simple c_short); ("c_uint16", Simple c_ushort);
    ("c_int32", Simple c_int); ("c_uint32", Simple c_uint);
    ("c_int64", Simple c_long); ("c_uint64", Simple c_ulong);
    ("c_size_t", Simple c_ulong); ("c_ssize_t", Simple c_long);
    ("c_buffer", c_buffer_function) ].

Fixpoint assoc_get {A : Type} (k : string) (l : list (string * A)) : option A :=
  match l with
  | [] => None
  | (k', v) :: l' => if String.eqb k k' then Some v else assoc_get k l'
  end.

(** Python scalars that a caller may pass, and numpy arrays.  An array is
    the only kind of argument with a [ctypes] attribute; of an array the
    bridge reads [size] and the address [ctypes.data]. *)
Inductive pyscalar : Set :=
| PyNone
| PyBool (b : bool)
| PyInt (z : Z)
| PyFloat (f : float).

Record ndarray : Set := { nd_size : Z; nd_data : Z }.

Inductive pyarg : Set :=
| Scalar (v : pyscalar)
| Array (a : ndarray).

(** A ctypes instance: [CNew t v] is what the call [t(v)] returned,
    [CCast t p] is the result of [ctypes.cast(p, t)], a pointer of type [t]
    to address [p]. *)
Inductive cdata : Set :=
| CNew (t : ctype) (v : pyscalar)
| CCast (t : ctype) (address : Z).

Definition cdata_type (c : cdata) : ctype :=
  match c with
  | CNew t _ => t
  | CCast t _ => t
  end.

(* ------------------------------------------------------------------ *)
(** ** cgen declarators                                                 *)
(* ------------------------------------------------------------------ *)

(** The declarators that can stand for a parameter.  [RestrictPointer] is a
    subclass of [Pointer]; [Const], [Pointer], [Reference] and [ArrayOf] are
    nested declarators with a [subdecl]. *)
Inductive decl : Set :=
| POD (dt : dtype) (name : string)
| Value (typename name : string)
| Const (subdecl : decl)
| Pointer (subdecl : decl)
| RestrictPointer (subdecl : decl)
| Reference (subdecl : decl)
| ArrayOf (subdecl : decl) (count : option Z).

#[global] Instance decl_eq_dec : EqDecision decl := ltac:(solve_decision).

(** [FunctionDeclaration(subdecl, arg_decls)]. *)
Record FunctionDeclaration : Set := {
  fd_subdecl : decl;
  fd_arg_decls : list decl
}.

(** [isinstance(d, cgen.Const)] and [isinstance(d, cgen.RestrictPointer)]. *)
Definition isinstance_Const (d : decl) : bool :=
  match d with
  | Const _ => true
  | _ => false
  end.

Definition isinstance_RestrictPointer (d : decl) : bool :=
  match d with
  | RestrictPointer _ => true
  | _ => false
  end.

(* ------------------------------------------------------------------ *)
(** ** Exceptions and the state-and-exception monad                     *)
(* ------------------------------------------------------------------ *)

Inductive exn : Set :=
| AssertionError
| IndexError
| AttributeError (attr : string)
| TypeError
| OverflowError
| ValueError_unhandled_arg (arg : decl)
    (* ValueError('unhandled type for arg %r' % (arg, )) *)
| ValueError_unhandled_restype (restype : string)
    (* ValueError('Unhandled restype %r' % (restype, )) *)
| CalledProcessError (returncode : Z) (cmd : list string)
| OSError (filename : string)
| ValueError_embedded_null
    (* ValueError('embedded null byte'), of open, subprocess and CDLL *)
| ValueError_array_length
    (* ValueError('Array length must be >= 0, not ...') *)
| UnicodeEncodeError
| CollaboratorError (what : string).

Inductive result (A : Type) : Type :=
| Ok (a : A)
| Raise (e : exn).

Arguments Ok {A} a.
Arguments Raise {A} e.

Definition is_Ok {A : Type} (r : result A) : bool :=
  match r with
  | Ok _ => true
  | Raise _ => false
  end.

(** A computation on a state [S]: it ends with a value or an exception, and
    in both cases leaves a state behind. *)
Definition M (S A : Type) : Type := S -> result A * S.

Definition M_ret {S A : Type} (a : A) : M S A := fun s => (Ok a, s).

Definition M_raise {S A : Type} (e : exn) : M S A := fun s => (Raise e, s).

Definition M_lift {S A : Type} (r : result A) : M S A := fun s => (r, s).

Definition M_bind {S A B : Type} (m : M S A) (k : A -> M S B) : M S B :=
  fun s =>
    match m s with
    | (Ok a, s') => k a s'
    | (Raise e, s') => (Raise e, s')
    end.

Definition M_modify {S : Type} (f : S -> S) : M S unit := fun s => (Ok tt, f s).

Notation "'let*' x ':=' c1 'in' c2" := (M_bind c1 (fun x => c2))
  (at level 10, x name, c1 at level 100, c2 at level 200).

Notation "'run' c1 'then' c2" := (M_bind c1 (fun _ => c2))
  (at level 10, c1 at level 100, c2 at level 200).

(** [for x in l: body(x)]. *)
Fixpoint M_for {S A : Type} (l : list A) (body : A -> M S unit) : M S unit :=
  match l with
  | [] => M_ret tt
  | x :: l' => run body x then M_for l' body
  end.

(** Attribute access on a declarator.  Every nested declarator forwards
    [name] to its [subdecl]; only [POD] has a [dtype]; only [Value] has a
    [typename]. *)
Fixpoint decl_name (d : decl) : string :=
  match d with
  | POD _ n => n
  | Value _ n => n
  | Const s | Pointer s | RestrictPointer s | Reference s | ArrayOf s _ =>
      decl_name s
  end.

Definition decl_dtype (d : decl) : result dtype :=
  match d with
  | POD dt _ => Ok dt
  | _ => Raise (AttributeError "dtype")
  end.

Definition decl_typename (d : decl) : result string :=
  match d with
  | Value t _ => Ok t
  | _ => Raise (AttributeError "typename")
  end.

(** [getattr(ctypes, attr)]. *)
Definition ctypes_getattr (attr : string) : result ctype :=
  match assoc_get attr ctypes_namespace with
  | Some t => Ok t
  | None => Raise (AttributeError attr)
  end.

(** [ctypes.POINTER(t)]: only a ctypes type has a pointer type. *)
Definition ctypes_POINTER (t : ctype) : result ctype :=
  match t with
  | c_buffer_function => Raise TypeError
  | _ => Ok (POINTER t)
  end.

(** Whether an item may stand in [argtypes]: it must have a [from_param]
    method, which every ctypes type has and a function has not. *)
Definition has_from_param (t : ctype) : bool :=
  match t with
  | c_buffer_function => false
  | _ => true
  end.

(** Largest magnitude of a Python int that [float()] still converts. *)
Definition float_int_bound : Z := 2 ^ 1024 - 2 ^ 970.

Definition is_integer_ctype (t : simple_ctype) : bool :=
  match t with
  | c_byte | c_ubyte | c_short | c_ushort | c_int | c_uint
  | c_long | c_ulong => true
  | _ => false
  end.

Definition is_float_ctype (t : simple_ctype) : bool :=
  match t with
  | c_float | c_double | c_longdouble => true
  | _ => false
  end.

(** Whether the constructor of a fundamental type takes the value. *)
Definition simple_ctype_init (t : simple_ctype) (v : pyscalar) : result unit :=
  match t with
  | c_bool => Ok tt
  | c_char =>
      match v with
      | PyBool _ => Ok tt
      | PyInt z => if bool_decide (0 <= z < 256) then Ok tt else Raise TypeError
      | _ => Raise TypeError
      end
  | c_wchar => Raise TypeError
  | c_char_p | c_wchar_p | c_void_p =>
      match v with
      | PyFloat _ => Raise TypeError
      | _ => Ok tt
      end
  | _ =>
      if is_float_ctype t then
        match v with
        | PyNone => Raise TypeError
        | PyBool _ | PyFloat _ => Ok tt
        | PyInt z =>
            if bool_decide (- float_int_bound < z < float_int_bound)
            then Ok tt else Raise OverflowError
        end
      else
        match v with
        | PyBool _ | PyInt _ => Ok tt
        | PyNone | PyFloat _ => Raise TypeError
        end
  end.

(** [t(v)]: calling a ctypes type on a Python scalar.  A pointer type takes
    only an instance of the type it points to, never a Python number.  The
    function [c_buffer] makes a character array of the given length. *)
Definition ctype_call (t : ctype) (v : pyscalar) : result cdata :=
  match t with
  | Simple s =>
      match simple_ctype_init s v with
      | Ok _ => Ok (CNew t v)
      | Raise e => Raise e
      end
  | POINTER _ => Raise TypeError
  | c_buffer_function =>
      match v with
      | PyBool _ => Ok (CNew t v)
      | PyInt z => if z <? 0 then Raise ValueError_array_length
                   else Ok (CNew t v)
      | PyNone | PyFloat _ => Raise TypeError
      end
  end.

(** [ctypes.cast(address, t)] accepts pointer types only. *)
Definition is_pointer_ctype (t : ctype) : bool :=
  match t with
  | POINTER _ => true
  | Simple (c_char_p | c_wchar_p | c_void_p) => true
  | Simple _ => false
  | c_buffer_function => false
  end.

(** [a.ctypes.data_as(t)] of numpy: a cast of the data address. *)
Definition data_as (a : ndarray) (t : ctype) : result cdata :=
  if is_pointer_ctype t then Ok (CCast t (nd_data a)) else Raise TypeError.

(** [result.append(f(x)) for x in l], stopping at the first exception. *)
Fixpoint M_map {S A B : Type} (f : A -> M S B) (l : list A) : M S (list B) :=
  match l with
  | [] => M_ret []
  | x :: l' =>
      let* y := f x in
      let* ys := M_map f l' in
      M_ret (y :: ys)
  end.

(* ------------------------------------------------------------------ *)
(** ** The outside world                                                *)
(* ------------------------------------------------------------------ *)

(** Hashable values that serve as arguments of the memoized method:
    [None], a frozenset of (argument name, dtype) pairs, a frozenset of
    keyword bindings. *)
Inductive pykey : Type :=
| KNone
| KDtypeSet (s : gset (string * dtype))
| KBindings (s : gset (string * Z)).

#[global] Instance pykey_eq_dec : EqDecision pykey := ltac:(solve_decision).

Definition pykey_encode (k : pykey)
  : unit + (gset (string * dtype) + gset (string * Z)) :=
  match k with
  | KNone => inl tt
  | KDtypeSet s => inr (inl s)
  | KBindings s => inr (inr s)
  end.

Definition pykey_decode (x : unit + (gset (string * dtype) + gset (string * Z)))
  : pykey :=
  match x with
  | inl _ => KNone
  | inr (inl s) => KDtypeSet s
  | inr (inr s) => KBindings s
  end.

#[global] Instance pykey_countable : Countable pykey :=
  inj_countable' pykey_encode pykey_decode ltac:(by intros []).

(** What the program does to its environment, most recent first. *)
Inductive event : Type :=
| EvMkdtemp (prefix path : string)
| EvOpenWrite (path content : string)
| EvPrint (text : string)
| EvSubprocess (argv : list string) (cwd : string) (returncode : option Z)
| EvCDLL (path : string)
| EvNativeCall (symbol : string) (args : list cdata)
| EvGetTypedAndScheduledKernel (arg_to_dtype_set : pykey)
| EvGenerateCode
| EvInvokeEditor (text filename : string)
| EvInvoker.

Definition world : Type := list event.

Definition emit {A : Type} (ev : event) (r : result A) : M world A :=
  fun w => (r, ev :: w).

(** A loaded shared library: its path and the symbols it exports. *)
Record CDLL : Set := { dll_path : string; dll_symbols : list string }.

(** The target of a kernel: whether it is a [CTarget], and the
    [dtype_to_ctype] of [target.get_dtype_registry().wrapped_registry]. *)
Record Target : Set := {
  is_CTarget : bool;
  registry_dtype_to_ctype : dtype -> result string
}.

(** A device program [dp]: [dp.name], [str(dp.ast)], and the declarations
    that [CFunctionDeclExtractor] collects from [dp.ast]. *)
Record DeviceProgram : Set := {
  dp_name : string;
  dp_ast_str : string;
  dp_decls : list FunctionDeclaration
}.

(** [kernel.options], as far as the module reads them. *)
Inductive write_cl_option : Set :=
| WriteClOff
| WriteClTrue
| WriteClPath (path : string).

Record Options : Set := {
  write_cl : write_cl_option;
  highlight_cl : bool;
  edit_cl : bool
}.

Definition write_cl_truthy (o : write_cl_option) : bool :=
  match o with
  | WriteClOff => false
  | WriteClTrue => true
  | WriteClPath p => negb (String.eqb p "")
  end.

(* ------------------------------------------------------------------ *)
(** ** class CCompiler, class CppCompiler                               *)
(* ------------------------------------------------------------------ *)

(** The class attributes. *)
Record CompilerClass : Set := {
  source_suffix : string;
  default_exe : string;
  default_compile_flags : list string;
  default_link_flags : list string
}.

Definition CCompiler_class : CompilerClass := {|
  source_suffix := "c";
  default_exe := "gcc";
  default_compile_flags := str_split "-std=c99 -g -O3 -fPIC";
  default_link_flags := str_split "-shared"
|}.

(** The subclass overrides three attributes and inherits the link flags. *)
Definition CppCompiler_class : CompilerClass := {|
  source_suffix := "cpp";
  default_exe := "g++";
  default_compile_flags := str_split "-g -O3";
  default_link_flags := default_link_flags CCompiler_class
|}.

(** An instance. *)
Record CCompiler : Set := {
  class_of : CompilerClass;
  exe : string;
  cflags : list string;
  ldflags : list string;
  tempdir : string
}.

Definition compile_args (self : CCompiler) (c_fname : string) : list string :=
  cflags self ++ ["-c"; c_fname].

Definition link_args (self : CCompiler) (obj_fname dll_fname : string)
  : list string :=
  ldflags self ++ ["-shared"; obj_fname; "-o"; dll_fname].

Definition _tempname (self : CCompiler) (name : string) : string :=
  os_path_join (tempdir self) name.

(** [x if x else d] for an optional string: [None] and [''] are false. *)
Definition str_or (o : option string) (d : string) : string :=
  match o with
  | Some (String c s) => String c s
  | _ => d
  end.

(** Run a computation on a private state inside another one: the value and
    the final private state, or the exception. *)
Definition M_exec {S T A : Type} (m : M T A) (init : T) : M S (A * T) :=
  fun s =>
    match m init with
    | (Ok a, t) => (Ok (a, t), s)
    | (Raise e, _) => (Raise e, s)
    end.

(** [ctypes] function pointer: the symbol it is bound to and the signature
    assigned to its [restype] and [argtypes] attributes. *)
Record CFuncPtr : Set := {
  fn_symbol : string;
  fn_restype : option ctype;
  fn_argtypes : list ctype
}.

(** class CompiledCKernel; [restype = None] is the C type [void].  The
    attribute [_prepared_call_cache] is created empty and never used. *)
Record CompiledCKernel : Set := {
  ck_target : Target;
  ck_knl : DeviceProgram;
  ck_code : string;
  ck_comp : CCompiler;
  ck_dll : CDLL;
  ck_func_decl : FunctionDeclaration;
  _arg_info : list (string * ctype);
  ck_name : string;
  ck_restype : option ctype;
  _fn : CFuncPtr
}.

Definition set_arg_info (self : CompiledCKernel) (ai : list (string * ctype))
  : CompiledCKernel :=
  {| ck_target := ck_target self; ck_knl := ck_knl self;
     ck_code := ck_code self; ck_comp := ck_comp self; ck_dll := ck_dll self;
     ck_func_decl := ck_func_decl self; _arg_info := ai;
     ck_name := ck_name self; ck_restype := ck_restype self;
     _fn := _fn self |}.

(** *** Declaration visitors

    They act on [self._arg_info] and read [self.target]. *)

Definition decl_subdecl (d : decl) : result decl :=
  match d with
  | Const s | Pointer s | RestrictPointer s | Reference s | ArrayOf s _ => Ok s
  | POD _ _ | Value _ _ => Raise (AttributeError "subdecl")
  end.

Definition _dtype_to_ctype (target : Target) (dt : dtype) (pointer : bool)
  : result ctype :=
  match registry_dtype_to_ctype target dt with
  | Raise e => Raise e
  | Ok typename =>
      let typename :=
        if String.eqb typename "unsigned" then "uint" else typename in
      match ctypes_getattr ("c_" +:+ typename) with
      | Raise e => Raise e
      | Ok basetype => if pointer then ctypes_POINTER basetype else Ok basetype
      end
  end.

Definition arg_info : Set := list (string * ctype).

Definition _append_arg (target : Target) (name : string) (dt : dtype)
    (pointer : bool) : M arg_info unit :=
  let* ct := M_lift (_dtype_to_ctype target dt pointer) in
  M_modify (fun l : arg_info => (l ++ [(name, ct)])%list).

Definition _visit_pointer (target : Target) (node : decl) : M arg_info unit :=
  let* pod := M_lift (decl_subdecl node) in
  let name := decl_name pod in
  let* dt := M_lift (decl_dtype pod) in
  _append_arg target name dt true.

Definition _visit_const (target : Target) (node : decl) : M arg_info unit :=
  let* sub := M_lift (decl_subdecl node) in
  if isinstance_RestrictPointer sub then _visit_pointer target sub
  else
    let pod := sub in
    let name := decl_name pod in
    let* dt := M_lift (decl_dtype pod) in
    _append_arg target name dt false.

(** The body of the loop of [_visit_func_decl]. *)
Definition visit_arg (target : Target) (arg : decl) : M arg_info unit :=
  if isinstance_Const arg then _visit_const target arg
  else if isinstance_RestrictPointer arg then _visit_pointer target arg
  else M_raise (ValueError_unhandled_arg arg).

Definition _visit_func_decl (target : Target) (func_decl : FunctionDeclaration)
  : M arg_info unit :=
  M_for (fd_arg_decls func_decl) (visit_arg target).

(** *** Marshalling, [__call__] *)

(** The body of the loop of [__call__]: one argument and the parameter type
    that [zip] pairs with it. *)
Definition marshal_arg (arg : pyarg) (arg_t : ctype) : result cdata :=
  match arg with
  | Array a =>
      if nd_size a =? 0 then ctype_call arg_t (PyFloat 0%float)
      else data_as a arg_t
  | Scalar v => ctype_call arg_t v
  end.

Fixpoint marshal_args (pairs : list (pyarg * ctype)) : result (list cdata) :=
  match pairs with
  | [] => Ok []
  | (arg, arg_t) :: rest =>
      match marshal_arg arg arg_t with
      | Raise e => Raise e
      | Ok arg_ =>
          match marshal_args rest with
          | Raise e => Raise e
          | Ok args_ => Ok (arg_ :: args_)
          end
      end
  end.

(** Calling a function pointer of a [CDLL] whose [argtypes] are set: at
    least as many arguments as parameter types are required, and an
    argument that is an instance of its parameter type is passed as it is
    (other conversions of [from_param] are not used by the bridge and are
    refused here). *)
Definition CFuncPtr_call (fn : CFuncPtr) (args_ : list cdata) : M world unit :=
  if (length args_ <? length (fn_argtypes fn))%nat then M_raise TypeError
  else if bool_decide (Forall2 (fun c t => cdata_type c = t)
                         (take (length (fn_argtypes fn)) args_)
                         (fn_argtypes fn))
  then emit (EvNativeCall (fn_symbol fn) args_) (Ok tt)
  else M_raise TypeError.

Definition CompiledCKernel_call (self : CompiledCKernel) (args : list pyarg)
  : M world unit :=
  let* args_ := M_lift (marshal_args (zip args (fn_argtypes (_fn self)))) in
  CFuncPtr_call (_fn self) args_.

(* ------------------------------------------------------------------ *)
(** ** Collaborators                                                    *)
(* ------------------------------------------------------------------ *)

Definition kwargs : Type := gmap string pyarg.

(** Why a text could not be written: the file could not be opened, or it
    was opened and the text could not be encoded for it. *)
Inductive write_failure : Set :=
| OpenFailed
| EncodeFailed.

(** The operating system, and the parts of loopy that the module calls but
    does not define.  [os_open_write] tells whether opening the file and
    writing the text both succeed, and [os_write_failure] which of the two
    went wrong when they do not; [os_subprocess] is the exit status of a
    process that ran, or [None] when none could be run; [os_dlopen] is the
    list of exported symbols of a library that could be loaded. *)
Record Collaborators : Type := {
  LoopKernel : Type;
  ImplementedDataInfo : Type;
  Invoker : Type;
  Outputs : Type;
  (* operating system *)
  os_mkdtemp : world -> string -> string;
  os_open_write : world -> string -> bool;
  os_write_failure : world -> string -> string -> write_failure;
  os_subprocess : world -> list string -> string -> option Z;
  os_dlopen : world -> string -> option (list string);
  (* loopy.execution.KernelExecutorBase, loopy.codegen, pytools *)
  get_typed_and_scheduled_kernel : pykey -> result LoopKernel;
  generate_code_v2 :
    LoopKernel -> result (string * list DeviceProgram * ImplementedDataInfo);
  get_highlighted_code : string -> string;
  invoke_editor : world -> string -> string -> result string;
  make_invoker :
    LoopKernel -> string * list DeviceProgram * ImplementedDataInfo ->
    result Invoker;
  packing_controller_unpack : kwargs -> result kwargs;
  arg_to_dtype_set : kwargs -> pykey;
  (* the invoker that loopy generates for a kernel *)
  run_invoker :
    Invoker -> list CompiledCKernel -> list pyarg -> kwargs -> M world Outputs
}.

Section Execution.

Variable env : Collaborators.

(** *** CCompiler: construction and [build] *)

Definition tempfile_mkdtemp (prefix : string) : M world string :=
  fun w =>
    let path := os_mkdtemp env w prefix in
    (Ok path, EvMkdtemp prefix path :: w).

Definition CCompiler_init (cls : CompilerClass) (cc : option string)
    (cflags_arg ldflags_arg : option (list string)) : M world CCompiler :=
  let exe_ := str_or cc (default_exe cls) in
  let cflags_ := list_or cflags_arg (default_compile_flags cls) in
  let ldflags_ := list_or ldflags_arg (default_link_flags cls) in
  let* tempdir_ := tempfile_mkdtemp "tmp_loopy" in
  M_ret {| class_of := cls; exe := exe_; cflags := cflags_;
           ldflags := ldflags_; tempdir := tempdir_ |}.

(** [_call]: [subprocess.check_call(args_, cwd=cwd)].  When no process
    could be run, the exception is [ValueError] if a NUL stands in the
    command line or the directory, and an [OSError] otherwise. *)
Definition CCompiler__call (self : CCompiler) (args : list string)
  : M world unit :=
  fun w =>
    let cwd := tempdir self in
    let args_ := exe self :: args in
    let rc := os_subprocess env w args_ cwd in
    let w' := EvSubprocess args_ cwd rc :: w in
    match rc with
    | None =>
        if (has_nul cwd || existsb has_nul args_)%bool
        then (Raise ValueError_embedded_null, w')
        else (Raise (OSError (exe self)), w')
    | Some code =>
        if code =? 0 then (Ok tt, w')
        else (Raise (CalledProcessError code args_), w')
    end.

(** [with open(path, 'w') as fd: fd.write(content)].  [open] refuses a path
    with a NUL by [ValueError] and fails otherwise by an [OSError]; a text
    that cannot be encoded raises [UnicodeEncodeError] after the file has
    been opened, which leaves it empty. *)
Definition open_write (path content : string) : M world unit :=
  fun w =>
    if os_open_write env w path then (Ok tt, EvOpenWrite path content :: w)
    else if has_nul path then (Raise ValueError_embedded_null, w)
    else
      match os_write_failure env w path content with
      | OpenFailed => (Raise (OSError path), w)
      | EncodeFailed => (Raise UnicodeEncodeError, EvOpenWrite path "" :: w)
      end.

(** [ctypes.CDLL(path)]: a path with a NUL is refused by [ValueError], a
    library that cannot be loaded by [OSError]. *)
Definition ctypes_CDLL (path : string) : M world CDLL :=
  fun w =>
    match os_dlopen env w path with
    | Some syms =>
        (Ok {| dll_path := path; dll_symbols := syms |}, EvCDLL path :: w)
    | None =>
        if has_nul path then (Raise ValueError_embedded_null, w)
        else (Raise (OSError path), w)
    end.

Definition build (self : CCompiler) (code : string) : M world CDLL :=
  let c_fname :=
    _tempname self ("code." +:+ source_suffix (class_of self)) in
  let obj_fname := _tempname self "code.o" in
  let dll_fname := _tempname self "code.so" in
  run open_write c_fname code then
  run CCompiler__call self (compile_args self c_fname) then
  run CCompiler__call self (link_args self obj_fname dll_fname) then
  ctypes_CDLL dll_fname.

(** [comp or CCompiler()], also [compiler if compiler else CCompiler()]:
    an instance is true, so only [None] gives the default compiler. *)
Definition comp_or_default (comp : option CCompiler) : M world CCompiler :=
  match comp with
  | Some c => M_ret c
  | None => CCompiler_init CCompiler_class None None None
  end.

(** *** CompiledCKernel: construction *)

(** [getattr(dll, name)]: a fresh function pointer, or [AttributeError]. *)
Definition CDLL_getattr (dll : CDLL) (name : string) : result string :=
  if bool_decide (name ∈ dll_symbols dll) then Ok name
  else Raise (AttributeError name).

Definition CompiledCKernel_init (knl : DeviceProgram) (target : Target)
    (comp : option CCompiler) : M world CompiledCKernel :=
  run (if is_CTarget target then M_ret tt else M_raise AssertionError) then
  let code := dp_ast_str knl in
  let* comp_ := comp_or_default comp in
  let* dll := build comp_ code in
  let* func_decl :=
    M_lift (match dp_decls knl with
            | d :: _ => Ok d
            | [] => Raise IndexError
            end) in
  let* visited := M_exec (_visit_func_decl target func_decl) [] in
  let arg_info_ := snd visited in
  let name := dp_name knl in
  let* restype := M_lift (decl_typename (fd_subdecl func_decl)) in
  let* restype_ :=
    if String.eqb restype "void" then M_ret (@None ctype)
    else M_raise (ValueError_unhandled_restype restype) in
  let* symbol := M_lift (CDLL_getattr dll name) in
  let* argtypes :=
    if forallb has_from_param (map snd arg_info_)
    then M_ret (map snd arg_info_) else M_raise TypeError in
  let fn := {| fn_symbol := symbol; fn_restype := restype_;
               fn_argtypes := argtypes |} in
  M_ret {| ck_target := target; ck_knl := knl; ck_code := code;
           ck_comp := comp_; ck_dll := dll; ck_func_decl := func_decl;
           _arg_info := arg_info_; ck_name := name;
           ck_restype := restype_; _fn := fn |}.

(** *** class CKernelExecutor *)

(** [_KernelInfo]. *)
Record KernelInfo : Type := {
  ki_kernel : LoopKernel env;
  ki_c_kernels : list CompiledCKernel;
  ki_implemented_data_info : ImplementedDataInfo env;
  ki_invoker : Invoker env
}.

(** The executor: its compiler, the options and target of [self.kernel],
    and the dictionary that [memoize_method] keeps for [kernel_info],
    keyed by the tuple of positional arguments. *)
Record CKernelExecutor : Type := {
  compiler : CCompiler;
  kernel_options : Options;
  kernel_target : Target;
  _memoize_dic_kernel_info : gmap (list pykey) KernelInfo
}.

Definition set_memoize_dic (self : CKernelExecutor)
    (d : gmap (list pykey) KernelInfo) : CKernelExecutor :=
  {| compiler := compiler self; kernel_options := kernel_options self;
     kernel_target := kernel_target self; _memoize_dic_kernel_info := d |}.

Definition CKernelExecutor_init (options : Options) (target : Target)
    (compiler_arg : option CCompiler) : M world CKernelExecutor :=
  let* compiler_ := comp_or_default compiler_arg in
  M_ret {| compiler := compiler_; kernel_options := options;
           kernel_target := target; _memoize_dic_kernel_info := ∅ |}.

(** The method under the decorator. *)
Definition kernel_info_body (self : CKernelExecutor)
    (arg_to_dtype_set_ : pykey) : M world KernelInfo :=
  let* kernel :=
    emit (EvGetTypedAndScheduledKernel arg_to_dtype_set_)
         (get_typed_and_scheduled_kernel env arg_to_dtype_set_) in
  let* codegen_result := emit EvGenerateCode (generate_code_v2 env kernel) in
  let dev_code := fst (fst codegen_result) in
  let options := kernel_options self in
  run (if write_cl_truthy (write_cl options) then
         let output :=
           if highlight_cl options then get_highlighted_code env dev_code
           else dev_code in
         match write_cl options with
         | WriteClPath path => open_write path output
         | _ => emit (EvPrint output) (Ok tt)
         end
       else M_ret tt) then
  let* dev_code_ :=
    if edit_cl options then
      fun w => (invoke_editor env w dev_code "code.cl",
                EvInvokeEditor dev_code "code.cl" :: w)
    else M_ret dev_code in
  let* c_kernels :=
    M_map (fun dp =>
             CompiledCKernel_init dp (kernel_target self)
               (Some (compiler self)))
          (snd (fst codegen_result)) in
  let* invoker := M_lift (make_invoker env kernel codegen_result) in
  M_ret {| ki_kernel := kernel; ki_c_kernels := c_kernels;
           ki_implemented_data_info := snd codegen_result;
           ki_invoker := invoker |}.

(** Binding the positional arguments to
    [(arg_to_dtype_set=frozenset(), all_kwargs=None)]; the method never
    reads [all_kwargs]. *)
Definition bind_kernel_info_args (args : list pykey) : result pykey :=
  match args with
  | [] => Ok (KDtypeSet ∅)
  | [a] => Ok a
  | [a; _] => Ok a
  | _ => Raise TypeError
  end.

(** [@memoize_method]: look the argument tuple up; on a miss call the
    method and store what it returns.  An exception leaves the dictionary
    as it was. *)
Definition kernel_info (args : list pykey)
  : M (CKernelExecutor * world) KernelInfo :=
  fun '(self, w) =>
    match _memoize_dic_kernel_info self !! args with
    | Some result => (Ok result, (self, w))
    | None =>
        match bind_kernel_info_args args with
        | Raise e => (Raise e, (self, w))
        | Ok a =>
            match kernel_info_body self a w with
            | (Ok result, w') =>
                (Ok result,
                 (set_memoize_dic self
                    (<[args := result]> (_memoize_dic_kernel_info self)),
                  w'))
            | (Raise e, w') => (Raise e, (self, w'))
            end
        end
    end.

(** A computation on the world, run by an executor that it leaves alone. *)
Definition in_world {A : Type} (m : M world A)
  : M (CKernelExecutor * world) A :=
  fun '(self, w) => let '(r, w') := m w in (r, (self, w')).

(** [CKernelExecutor.__call__]. *)
Definition CKernelExecutor_call (args : list pyarg) (kw : kwargs)
  : M (CKernelExecutor * world) (Outputs env) :=
  let* kw_ := M_lift (packing_controller_unpack env kw) in
  let* info := kernel_info [arg_to_dtype_set env kw_] in
  in_world (run_invoker env (ki_invoker info) (ki_c_kernels info) args kw_).


End Execution.

(* ------------------------------------------------------------------ *)
(** ** The methods of a constructed CompiledCKernel                     *)
(* ------------------------------------------------------------------ *)

(** The methods that can be invoked on an existing object.  The visitors
    update [_arg_info] in place; a caller may catch the exception of a
    method, and the object lives on in the state the method left. *)
Inductive method : Set :=
| method_call (args : list pyarg)
| method_append_arg (name : string) (dt : dtype) (pointer : bool)
| method_visit_const (node : decl)
| method_visit_pointer (node : decl)
| method_visit_func_decl (func_decl : FunctionDeclaration).

Definition on_arg_info (self : CompiledCKernel) (w : world) (m : M arg_info unit)
  : result unit * (CompiledCKernel * world) :=
  let '(r, ai) := m (_arg_info self) in (r, (set_arg_info self ai, w)).

Definition invoke_method (m : method) : M (CompiledCKernel * world) unit :=
  fun '(self, w) =>
    match m with
    | method_call args =>
        let '(r, w') := CompiledCKernel_call self args w in (r, (self, w'))
    | method_append_arg name dt pointer =>
        on_arg_info self w (_append_arg (ck_target self) name dt pointer)
    | method_visit_const node =>
        on_arg_info self w (_visit_const (ck_target self) node)
    | method_visit_pointer node =>
        on_arg_info self w (_visit_pointer (ck_target self) node)
    | method_visit_func_decl fd =>
        on_arg_info self w (_visit_func_decl (ck_target self) fd)
    end.

(** A sequence of method invocations, exceptions caught in between. *)
Fixpoint invoke_methods (ms : list method) (st : CompiledCKernel * world)
  : CompiledCKernel * world :=
  match ms with
  | [] => st
  | m :: ms' => invoke_methods ms' (snd (invoke_method m st))
  end.

(* ------------------------------------------------------------------ *)
(** ** The parameter classification of the specification                *)
(* ------------------------------------------------------------------ *)

Record ParameterDescriptor : Set := {
  pd_name : string;
  pd_baseType : dtype;
  pd_isPointer : bool
}.

(** The three supported shapes: a restrict pointer to a plain scalar, the
    same under const, and a const plain scalar. *)
Definition classify (d : decl) : option ParameterDescriptor :=
  match d with
  | RestrictPointer (POD dt n) =>
      Some {| pd_name := n; pd_baseType := dt; pd_isPointer := true |}
  | Const (RestrictPointer (POD dt n)) =>
      Some {| pd_name := n; pd_baseType := dt; pd_isPointer := true |}
  | Const (POD dt n) =>
      Some {| pd_name := n; pd_baseType := dt; pd_isPointer := false |}
  | _ => None
  end.

(** The native parameter type of a descriptor. *)
Definition native_type (target : Target) (pd : ParameterDescriptor)
  : result ctype :=
  _dtype_to_ctype target (pd_baseType pd) (pd_isPointer pd).

(** A declared parameter and the entry of [_arg_info] extracted from it. *)
Definition extracted_from (target : Target) (d : decl)
    (entry : string * ctype) : Prop :=
  exists pd : ParameterDescriptor,
    classify d = Some pd /\ fst entry = pd_name pd /\
    native_type target pd = Ok (snd entry).

(** A computation on the world only adds events to the trace. *)
Definition extends_trace {A : Type} (m : M world A) : Prop :=
  forall w : world, exists evs : list event, snd (m w) = evs ++ w.

(** What appending a parameter amounts to: the entry is added at the end
    when the dtype has a ctypes type, and the exception of the lookup leaves
    the list as it was. *)
Definition append_outcome (target : Target) (name : string) (dt : dtype)
    (pointer : bool) (st : arg_info) : result unit * arg_info :=
  match _dtype_to_ctype target dt pointer with
  | Ok ct => (Ok tt, st ++ [(name, ct)])
  | Raise e => (Raise e, st)
  end.

(** The exception for a parameter outside the three shapes. *)
Definition unsupported_shape_error (d : decl) : exn :=
  if (isinstance_Const d || isinstance_RestrictPointer d)%bool
  then AttributeError "dtype"
  else ValueError_unhandled_arg d.

(** The device program with the return type name of its first declaration
    replaced. *)
Definition set_return_type (restype : string) (knl : DeviceProgram)
  : DeviceProgram :=
  match dp_decls knl with
  | [] => knl
  | fd :: rest =>
      {| dp_name := dp_name knl; dp_ast_str := dp_ast_str knl;
         dp_decls :=
           {| fd_subdecl := Value restype (decl_name (fd_subdecl fd));
              fd_arg_decls := fd_arg_decls fd |} :: rest |}
  end.

(* ------------------------------------------------------------------ *)
(** ** A concrete environment                                           *)
(* ------------------------------------------------------------------ *)

(** A registry in the style of the C type names of compyte. *)
Definition sample_registry (dt : dtype) : result string :=
  match dt with
  | np_bool => Ok "bool"
  | np_int8 => Ok "signed char"
  | np_uint8 => Ok "unsigned char"
  | np_int16 => Ok "short"
  | np_uint16 => Ok "unsigned short"
  | np_int32 => Ok "int"
  | np_uint32 => Ok "unsigned"
  | np_int64 => Ok "long"
  | np_uint64 => Ok "unsigned long"
  | np_float32 => Ok "float"
  | np_float64 => Ok "double"
  | np_complex64 | np_complex128 => Raise (CollaboratorError "TypeNameNotKnown")
  end.

Definition sample_target : Target :=
  {| is_CTarget := true; registry_dtype_to_ctype := sample_registry |}.

Definition sample_func_decl : FunctionDeclaration :=
  {| fd_subdecl := Value "void" "scale";
     fd_arg_decls :=
       [RestrictPointer (POD np_float32 "a"); Const (POD np_int32 "n")] |}.

Definition sample_program : DeviceProgram :=
  {| dp_name := "scale";
     dp_ast_str := "void scale(float *__restrict__ a, int const n) { }";
     dp_decls := [sample_func_decl] |}.

(** An environment in which every compiler run ends with status [rc]. *)
Definition sample_env (rc : Z) : Collaborators :=
  {| LoopKernel := pykey;
     ImplementedDataInfo := unit;
     Invoker := unit;
     Outputs := unit;
     os_mkdtemp := fun _ prefix => "/tmp/" +:+ prefix;
     os_open_write := fun _ _ => true;
     os_write_failure := fun _ _ _ => OpenFailed;
     os_subprocess := fun _ _ _ => Some rc;
     os_dlopen := fun _ _ => Some ["scale"];
     get_typed_and_scheduled_kernel := fun a => Ok a;
     generate_code_v2 := fun _ => Ok (dp_ast_str sample_program, [sample_program], tt);
     get_highlighted_code := fun s => s;
     invoke_editor := fun _ s _ => Ok s;
     make_invoker := fun _ _ => Ok tt;
     packing_controller_unpack := fun kw => Ok kw;
     arg_to_dtype_set := fun kw =>
       KDtypeSet (if bool_decide (is_Some (kw !! "a"))
                  then {[ ("a", np_float32) ]} else ∅);
     run_invoker := fun _ _ _ _ => M_ret tt |}.

Definition sample_compiler : CCompiler :=
  {| class_of := CCompiler_class; exe := "gcc";
     cflags := default_compile_flags CCompiler_class;
     ldflags := default_link_flags CCompiler_class;
     tempdir := "/tmp/tmp_loopy" |}.

Definition sample_options : Options :=
  {| write_cl := WriteClOff; highlight_cl := false; edit_cl := false |}.

(** The bridge that the sample program, target and compiler give. *)
Definition sample_kernel : CompiledCKernel :=
  {| ck_target := sample_target; ck_knl := sample_program;
     ck_code := dp_ast_str sample_program; ck_comp := sample_compiler;
     ck_dll := {| dll_path := "/tmp/tmp_loopy/code.so";
                  dll_symbols := ["scale"] |};
     ck_func_decl := sample_func_decl;
     _arg_info := [("a", POINTER (Simple c_float)); ("n", Simple c_int)];
     ck_name := "scale"; ck_restype := None;
     _fn := {| fn_symbol := "scale"; fn_restype := None;
               fn_argtypes := [POINTER (Simple c_float); Simple c_int] |} |}.

(** An executor with nothing memoized yet, and a dtype signature. *)
Definition sample_executor (rc : Z) : CKernelExecutor (sample_env rc) :=
  {| compiler := sample_compiler; kernel_options := sample_options;
     kernel_target := sample_target; _memoize_dic_kernel_info := ∅ |}.

Definition sample_signature : pykey := KDtypeSet {[ ("a", np_float32) ]}.

Definition sample_kwargs : kwargs :=
  {[ "a" := Array {| nd_size := 4; nd_data := 4096 |} ]}.

(** What the first request for the sample signature returns and leaves in
    the trace when the compiler succeeds. *)
Definition sample_info : KernelInfo (sample_env 0) :=
  {| ki_kernel := sample_signature : LoopKernel (sample_env 0);
     ki_c_kernels := [sample_kernel];
     ki_implemented_data_info := tt : ImplementedDataInfo (sample_env 0);
     ki_invoker := tt : Invoker (sample_env 0) |}.

Definition sample_trace (rc : Z) : world :=
  [ EvSubprocess
      ["gcc"; "-shared"; "-shared"; "/tmp/tmp_loopy/code.o"; "-o";
       "/tmp/tmp_loopy/code.so"] "/tmp/tmp_loopy" (Some rc);
    EvSubprocess
      ["gcc"; "-std=c99"; "-g"; "-O3"; "-fPIC"; "-c"; "/tmp/tmp_loopy/code.c"]
      "/tmp/tmp_loopy" (Some rc);
    EvOpenWrite "/tmp/tmp_loopy/code.c" (dp_ast_str sample_program);
    EvGenerateCode;
    EvGetTypedAndScheduledKernel sample_signature ].

(** The exceptions of the toolchain: a file that cannot be written or
    loaded, a compiler that cannot be started or exits with an error. *)
Definition is_toolchain_error (e : exn) : bool :=
  match e with
  | OSError _ | CalledProcessError _ _
  | ValueError_embedded_null | UnicodeEncodeError => true
  | _ => false
  end.

(** The two errors that the module itself raises for a declaration. *)
Definition is_declaration_error (e : exn) : bool :=
  match e with
  | ValueError_unhandled_arg _ | ValueError_unhandled_restype _ => true
  | _ => false
  end.

Definition is_load_event (ev : event) : bool :=
  match ev with
  | EvCDLL _ => true
  | _ => false
  end.

Definition is_native_call_event (ev : event) : bool :=
  match ev with
  | EvNativeCall _ _ => true
  | _ => false
  end.

(** Whether a C type name has a blank in it, like [unsigned char]. *)
Fixpoint has_space (s : string) : bool :=
  match s with
  | EmptyString => false
  | String c s' => (is_space c || has_space s')%bool
  end.

(** The three files of a build. *)
Definition scratch_source (self : CCompiler) : string :=
  _tempname self ("code." +:+ source_suffix (class_of self)).

Definition scratch_object (self : CCompiler) : string :=
  _tempname self "code.o".

Definition scratch_library (self : CCompiler) : string :=
  _tempname self "code.so".




(** A second bridge, with two pointer parameters. *)
Definition sample_copy_decl : FunctionDeclaration :=
  {| fd_subdecl := Value "void" "copy";
     fd_arg_decls :=
       [RestrictPointer (POD np_float32 "out");
        Const (RestrictPointer (POD np_float32 "a"))] |}.

Definition sample_copy_kernel : CompiledCKernel :=
  {| ck_target := sample_target;
     ck_knl := {| dp_name := "copy"; dp_ast_str := "";
                  dp_decls := [sample_copy_decl] |};
     ck_code := ""; ck_comp := sample_compiler;
     ck_dll := {| dll_path := "/tmp/tmp_loopy/code.so";
                  dll_symbols := ["copy"] |};
     ck_func_decl := sample_copy_decl;
     _arg_info := [("out", POINTER (Simple c_float));
                   ("a", POINTER (Simple c_float))];
     ck_name := "copy"; ck_restype := None;
     _fn := {| fn_symbol := "copy"; fn_restype := None;
               fn_argtypes := [POINTER (Simple c_float);
                               POINTER (Simple c_float)] |} |}.


(** A computation on the world adds events to the trace, none of them a
    call of native code. *)
Definition no_native_call (m : world -> world) : Prop :=
  forall w : world,
    exists evs : list event,
      m w = evs ++ w /\ Forall (fun ev => is_native_call_event ev = false) evs.

Definition leaves_native_code_alone {A : Type} (m : M world A) : Prop :=
  no_native_call (fun w => snd (m w)).

(* ================================================================== *)
(** * Properties                                                        *)
(* ================================================================== *)

(** ** Marshalling lemmas *)

Lemma zip_take_length {A B : Type} (l : list A) (k : list B) :
  zip l k = zip (take (length k) l) k.
Proof.
  revert k; induction l as [|x l IH]; intros [|y k]; simpl; try done.
  by rewrite <- IH.
Qed.

Lemma ctype_call_type (t : ctype) (v : pyscalar) (c : cdata) :
  ctype_call t v = Ok c -> c = CNew t v.
Proof.
  destruct t as [s|t|]; simpl; [|done|].
  - destruct (simple_ctype_init s v); congruence.
  - destruct v as [|b|z|f]; try done; [congruence|].
    destruct (z <? 0); congruence.
Qed.

Lemma data_as_type (a : ndarray) (t : ctype) (c : cdata) :
  data_as a t = Ok c -> c = CCast t (nd_data a).
Proof. unfold data_as. destruct (is_pointer_ctype t); congruence. Qed.

Lemma marshal_arg_type (arg : pyarg) (arg_t : ctype) (c : cdata) :
  marshal_arg arg arg_t = Ok c -> cdata_type c = arg_t.
Proof.
  destruct arg as [v|a]; simpl.
  - intros H. by rewrite (ctype_call_type _ _ _ H).
  - destruct (nd_size a =? 0); intros H.
    + by rewrite (ctype_call_type _ _ _ H).
    + by rewrite (data_as_type _ _ _ H).
Qed.

Lemma marshal_args_types (pairs : list (pyarg * ctype)) (args_ : list cdata) :
  marshal_args pairs = Ok args_ ->
  Forall2 (fun c t => cdata_type c = t) args_ (pairs.*2).
Proof.
  revert args_; induction pairs as [|[arg arg_t] rest IH]; simpl; intros args_.
  - intros [= <-]. constructor.
  - destruct (marshal_arg arg arg_t) as [c|] eqn:Harg; [|done].
    destruct (marshal_args rest) as [cs|]; [|done].
    intros [= <-]. constructor; [by eapply marshal_arg_type | by apply IH].
Qed.

Lemma marshal_args_length (pairs : list (pyarg * ctype)) (args_ : list cdata) :
  marshal_args pairs = Ok args_ -> length args_ = length pairs.
Proof.
  intros H. apply marshal_args_types in H.
  apply Forall2_length in H. by rewrite H, length_fmap.
Qed.

(** When every paired argument marshals, the native function is entered
    exactly when no parameter is left without an argument. *)
Lemma call_marshalled (self : CompiledCKernel) (args : list pyarg)
    (args_ : list cdata) (w : world) :
  marshal_args (zip args (fn_argtypes (_fn self))) = Ok args_ ->
  (length (fn_argtypes (_fn self)) <= length args)%nat ->
  CompiledCKernel_call self args w
  = (Ok tt, EvNativeCall (fn_symbol (_fn self)) args_ :: w).
Proof.
  intros Hm Hlen. unfold CompiledCKernel_call, M_bind, M_lift. rewrite Hm.
  pose proof (marshal_args_types _ _ Hm) as Hty.
  pose proof (marshal_args_length _ _ Hm) as Hl.
  rewrite snd_zip in Hty by done.
  rewrite length_zip_with, Nat.min_r in Hl by done.
  unfold CFuncPtr_call. rewrite Hl, Nat.ltb_irrefl.
  rewrite <- Hl, firstn_all, bool_decide_eq_true_2 by done.
  done.
Qed.

Lemma call_marshal_error (self : CompiledCKernel) (args : list pyarg)
    (e : exn) (w : world) :
  marshal_args (zip args (fn_argtypes (_fn self))) = Raise e ->
  CompiledCKernel_call self args w = (Raise e, w).
Proof.
  intros Hm. unfold CompiledCKernel_call, M_bind, M_lift. by rewrite Hm.
Qed.

(** ** The visitors of the declaration *)

Lemma _append_arg_outcome (target : Target) (name : string) (dt : dtype)
    (pointer : bool) (st : arg_info) :
  _append_arg target name dt pointer st
  = append_outcome target name dt pointer st.
Proof.
  unfold _append_arg, append_outcome, M_bind, M_lift, M_modify.
  by destruct (_dtype_to_ctype target dt pointer).
Qed.

Lemma visit_arg_classified (target : Target) (d : decl)
    (pd : ParameterDescriptor) (st : arg_info) :
  classify d = Some pd ->
  visit_arg target d st
  = append_outcome target (pd_name pd) (pd_baseType pd) (pd_isPointer pd) st.
Proof.
  intros Hc. rewrite <- _append_arg_outcome.
  destruct d as [| |s|s|s|s|s c]; try done; simpl in Hc.
  - destruct s as [dt n| |s'|s'|s'|s'|s' c']; try done.
    + by inversion Hc.
    + destruct s' as [dt n| | | | | |]; try done. by inversion Hc.
  - destruct s as [dt n| | | | | |]; try done. by inversion Hc.
Qed.

Lemma visit_arg_unclassified (target : Target) (d : decl) (st : arg_info) :
  classify d = None ->
  visit_arg target d st = (Raise (unsupported_shape_error d), st).
Proof.
  intros Hc.
  destruct d as [| |s|s|s|s|s c]; try done; simpl in Hc.
  - destruct s as [dt n| |s'|s'|s'|s'|s' c']; try done.
    destruct s' as [dt n| | | | | |]; done.
  - destruct s as [dt n| | | | | |]; done.
Qed.

(** ** Construction of the bridge, step by step *)

(** The object that [__init__] leaves when every step succeeds. *)
Lemma CompiledCKernel_init_steps (env : Collaborators) (knl : DeviceProgram)
    (target : Target) (comp : option CCompiler) (w w1 w2 : world)
    (comp_ : CCompiler) (dll : CDLL) (fd : FunctionDeclaration)
    (rest : list FunctionDeclaration) (ai : arg_info) :
  is_CTarget target = true ->
  comp_or_default env comp w = (Ok comp_, w1) ->
  build env comp_ (dp_ast_str knl) w1 = (Ok dll, w2) ->
  dp_decls knl = fd :: rest ->
  _visit_func_decl target fd [] = (Ok tt, ai) ->
  CompiledCKernel_init env knl target comp w
  = match decl_typename (fd_subdecl fd) with
    | Raise e => (Raise e, w2)
    | Ok restype =>
        if String.eqb restype "void" then
          match CDLL_getattr dll (dp_name knl) with
          | Raise e => (Raise e, w2)
          | Ok symbol =>
              if forallb has_from_param (map snd ai) then
                (Ok {| ck_target := target; ck_knl := knl;
                       ck_code := dp_ast_str knl; ck_comp := comp_;
                       ck_dll := dll; ck_func_decl := fd; _arg_info := ai;
                       ck_name := dp_name knl; ck_restype := None;
                       _fn := {| fn_symbol := symbol; fn_restype := None;
                                 fn_argtypes := map snd ai |} |}, w2)
              else (Raise TypeError, w2)
          end
        else (Raise (ValueError_unhandled_restype restype), w2)
    end.
Proof.
  intros Ht Hc Hb Hd Hv.
  unfold CompiledCKernel_init, M_bind, M_exec, M_lift, M_ret, M_raise.
  rewrite Ht, Hc, Hb, Hd, Hv; simpl.
  destruct (decl_typename (fd_subdecl fd)) as [restype|e]; [|done].
  destruct (String.eqb restype "void"); [|done].
  destruct (CDLL_getattr dll (dp_name knl)); [|done].
  by destruct (forallb has_from_param (map snd ai)).
Qed.

(** Conversely, a constructed object went through every step. *)
Lemma CompiledCKernel_init_inv (env : Collaborators) (knl : DeviceProgram)
    (target : Target) (comp : option CCompiler) (w w2 : world)
    (self : CompiledCKernel) :
  CompiledCKernel_init env knl target comp w = (Ok self, w2) ->
  exists (w1 : world) (comp_ : CCompiler) (dll : CDLL)
         (fd : FunctionDeclaration) (rest : list FunctionDeclaration)
         (ai : arg_info) (fname : string),
    is_CTarget target = true /\
    comp_or_default env comp w = (Ok comp_, w1) /\
    build env comp_ (dp_ast_str knl) w1 = (Ok dll, w2) /\
    dp_decls knl = fd :: rest /\
    _visit_func_decl target fd [] = (Ok tt, ai) /\
    fd_subdecl fd = Value "void" fname /\
    dp_name knl ∈ dll_symbols dll /\
    self = {| ck_target := target; ck_knl := knl;
              ck_code := dp_ast_str knl; ck_comp := comp_;
              ck_dll := dll; ck_func_decl := fd; _arg_info := ai;
              ck_name := dp_name knl; ck_restype := None;
              _fn := {| fn_symbol := dp_name knl; fn_restype := None;
                        fn_argtypes := map snd ai |} |}.
Proof.
  intros H.
  destruct (is_CTarget target) eqn:Ht;
    [|by unfold CompiledCKernel_init, M_bind, M_raise in H; rewrite Ht in H].
  destruct (comp_or_default env comp w) as [[comp_|e] w1] eqn:Hc;
    [|by unfold CompiledCKernel_init, M_bind, M_ret in H;
         rewrite Ht in H; simpl in H; rewrite Hc in H].
  destruct (build env comp_ (dp_ast_str knl) w1) as [[dll|e] w2'] eqn:Hb;
    [|by unfold CompiledCKernel_init, M_bind, M_ret in H;
         rewrite Ht in H; simpl in H; rewrite Hc, Hb in H].
  destruct (dp_decls knl) as [|fd rest] eqn:Hd;
    [by unfold CompiledCKernel_init, M_bind, M_ret, M_lift in H;
        rewrite Ht in H; simpl in H; rewrite Hc, Hb, Hd in H|].
  destruct (_visit_func_decl target fd []) as [[[]|e] ai] eqn:Hv;
    [|by unfold CompiledCKernel_init, M_bind, M_ret, M_lift, M_exec in H;
         rewrite Ht in H; simpl in H; rewrite Hc, Hb, Hd, Hv in H].
  rewrite (CompiledCKernel_init_steps env knl target comp w w1 w2' comp_ dll
             fd rest ai) in H by done.
  destruct (fd_subdecl fd) as [|tn fname| | | | |] eqn:Hs; try done.
  simpl in H. destruct (String.eqb tn "void") eqn:Hvoid; [|done].
  apply String.eqb_eq in Hvoid; subst tn.
  unfold CDLL_getattr in H. case_bool_decide as Hin; [|done].
  destruct (forallb has_from_param (map snd ai)); [|done].
  inversion H; subst. by exists w1, comp_, dll, fd, rest, ai, fname.
Qed.

(** ** What construction and the methods leave *)

Lemma visit_arg_Ok_inv (target : Target) (d : decl) (st st' : arg_info) :
  visit_arg target d st = (Ok tt, st') ->
  exists entry, st' = st ++ [entry] /\ extracted_from target d entry.
Proof.
  intros H. destruct (classify d) as [pd|] eqn:Hc.
  - rewrite (visit_arg_classified _ _ _ _ Hc) in H.
    unfold append_outcome in H.
    destruct (_dtype_to_ctype target (pd_baseType pd) (pd_isPointer pd))
      as [ct|] eqn:Hct; [|done].
    inversion H; subst. exists (pd_name pd, ct). split; [done|].
    by exists pd.
  - by rewrite visit_arg_unclassified in H.
Qed.

Lemma visit_all_Ok_inv (target : Target) (l : list decl) (st st' : arg_info) :
  M_for l (visit_arg target) st = (Ok tt, st') ->
  exists added, st' = st ++ added /\ Forall2 (extracted_from target) l added.
Proof.
  revert st; induction l as [|d l IH]; intros st; simpl.
  - intros [= <-]. exists []. split; [by rewrite app_nil_r | constructor].
  - unfold M_bind.
    destruct (visit_arg target d st) as [[[]|e] st1] eqn:Hd; [|done].
    intros Hrest.
    destruct (visit_arg_Ok_inv _ _ _ _ Hd) as (entry & -> & Hentry).
    destruct (IH _ Hrest) as (added & -> & Hall).
    exists (entry :: added). split; [by rewrite <- app_assoc|].
    by constructor.
Qed.

Lemma invoke_method_fn (m : method) (self : CompiledCKernel) (w : world) :
  _fn (fst (snd (invoke_method m (self, w)))) = _fn self.
Proof.
  destruct m; simpl; unfold on_arg_info.
  - by destruct (CompiledCKernel_call self args w).
  - by destruct (_append_arg (ck_target self) name dt pointer (_arg_info self)).
  - by destruct (_visit_const (ck_target self) node (_arg_info self)).
  - by destruct (_visit_pointer (ck_target self) node (_arg_info self)).
  - by destruct (_visit_func_decl (ck_target self) func_decl (_arg_info self)).
Qed.

Lemma invoke_methods_fn (ms : list method) (self : CompiledCKernel)
    (w : world) :
  _fn (fst (invoke_methods ms (self, w))) = _fn self.
Proof.
  revert self w; induction ms as [|m ms IH]; intros self w; [done|].
  pose proof (invoke_method_fn m self w) as H.
  cbn [invoke_methods].
  destruct (invoke_method m (self, w)) as [r [self1 w1]].
  cbn [fst snd] in *. by rewrite IH.
Qed.

Lemma call_depends_on_fn (self1 self2 : CompiledCKernel) (args : list pyarg)
    (w : world) :
  _fn self1 = _fn self2 ->
  CompiledCKernel_call self1 args w = CompiledCKernel_call self2 args w.
Proof. intros H. unfold CompiledCKernel_call. by rewrite H. Qed.

(** A bridge is constructed only from parameters of the three shapes. *)
Lemma init_Ok_all_classified (env : Collaborators) (knl : DeviceProgram)
    (target : Target) (comp : option CCompiler) (w w2 : world)
    (self : CompiledCKernel) (fd : FunctionDeclaration)
    (rest : list FunctionDeclaration) (d : decl) :
  CompiledCKernel_init env knl target comp w = (Ok self, w2) ->
  dp_decls knl = fd :: rest ->
  d ∈ fd_arg_decls fd ->
  is_Some (classify d).
Proof.
  intros Hinit Hd Hin.
  destruct (CompiledCKernel_init_inv _ _ _ _ _ _ _ Hinit)
    as (w1 & comp_ & dll & fd' & rest' & ai & fname &
        _ & _ & _ & Hd' & Hv & _).
  rewrite Hd in Hd'. inversion Hd'; subst fd' rest'.
  destruct (visit_all_Ok_inv _ _ _ _ Hv) as (added & _ & Hall).
  apply list_elem_of_lookup in Hin as [i Hi].
  destruct (Forall2_lookup_l _ _ _ _ _ Hall Hi) as (entry & _ & pd & Hc & _).
  by exists pd.
Qed.

(** ** The trace only grows *)

Lemma extends_ret {A : Type} (a : A) : extends_trace (M_ret a).
Proof. intros w. by exists []. Qed.

Lemma extends_raise {A : Type} (e : exn) : extends_trace (@M_raise world A e).
Proof. intros w. by exists []. Qed.

Lemma extends_lift {A : Type} (r : result A) : extends_trace (M_lift r).
Proof. intros w. by exists []. Qed.

Lemma extends_emit {A : Type} (ev : event) (r : result A) :
  extends_trace (emit ev r).
Proof. intros w. by exists [ev]. Qed.

Lemma extends_bind {A B : Type} (m : M world A) (k : A -> M world B) :
  extends_trace m -> (forall a, extends_trace (k a)) ->
  extends_trace (M_bind m k).
Proof.
  intros Hm Hk w. unfold M_bind. destruct (Hm w) as [evs Hevs].
  destruct (m w) as [[a|e] w1]; simpl in Hevs; subst w1.
  - destruct (Hk a (evs ++ w)) as [evs' Hevs']. exists (evs' ++ evs).
    by rewrite Hevs', app_assoc.
  - by exists evs.
Qed.

Lemma extends_exec {T A : Type} (m : M T A) (init : T) :
  extends_trace (M_exec m init).
Proof. intros w. exists []. unfold M_exec. by destruct (m init) as [[a|e] t]. Qed.

Lemma extends_map {A B : Type} (f : A -> M world B) (l : list A) :
  (forall a, extends_trace (f a)) -> extends_trace (M_map f l).
Proof.
  intros Hf. induction l as [|x l IH]; simpl; [apply extends_ret|].
  apply extends_bind; [apply Hf|]. intros y.
  apply extends_bind; [apply IH|]. intros ys. apply extends_ret.
Qed.

Create HintDb trace.

#[local] Hint Resolve extends_ret extends_raise extends_lift extends_emit
  extends_exec : trace.

Ltac trace_steps :=
  repeat first
    [ solve [auto with trace]
    | apply extends_bind; [|intros ?]
    | apply extends_map; intros ? ].

Section TraceOfExecution.

Variable env : Collaborators.

Lemma extends_mkdtemp (prefix : string) :
  extends_trace (tempfile_mkdtemp env prefix).
Proof. intros w. by eexists [_]. Qed.

Lemma extends_call (self : CCompiler) (args : list string) :
  extends_trace (CCompiler__call env self args).
Proof.
  intros w. unfold CCompiler__call.
  destruct (os_subprocess env w (exe self :: args) (tempdir self)) as [code|];
    [destruct (code =? 0)|destruct (has_nul _ || existsb has_nul _)%bool];
    by eexists [_].
Qed.

Lemma extends_open_write (path content : string) :
  extends_trace (open_write env path content).
Proof.
  intros w. unfold open_write.
  destruct (os_open_write env w path); [by eexists [_]|].
  destruct (has_nul path); [by exists []|].
  destruct (os_write_failure env w path content);
    [by exists [] | by eexists [_]].
Qed.

Lemma extends_CDLL (path : string) : extends_trace (ctypes_CDLL env path).
Proof.
  intros w. unfold ctypes_CDLL.
  destruct (os_dlopen env w path); [by eexists [_]|].
  destruct (has_nul path); by exists [].
Qed.

#[local] Hint Resolve extends_mkdtemp extends_call extends_open_write
  extends_CDLL : trace.

Lemma extends_CCompiler_init (cls : CompilerClass) (cc : option string)
    (cf lf : option (list string)) :
  extends_trace (CCompiler_init env cls cc cf lf).
Proof. unfold CCompiler_init. trace_steps. Qed.

Lemma extends_comp_or_default (comp : option CCompiler) :
  extends_trace (comp_or_default env comp).
Proof.
  destruct comp; simpl; [apply extends_ret | apply extends_CCompiler_init].
Qed.

Lemma extends_build (self : CCompiler) (code : string) :
  extends_trace (build env self code).
Proof. unfold build. trace_steps. Qed.

#[local] Hint Resolve extends_comp_or_default extends_build : trace.

Lemma extends_CompiledCKernel_init (knl : DeviceProgram) (target : Target)
    (comp : option CCompiler) :
  extends_trace (CompiledCKernel_init env knl target comp).
Proof.
  unfold CompiledCKernel_init. trace_steps.
  - destruct (is_CTarget target); auto with trace.
  - destruct (String.eqb _ "void"); auto with trace.
  - destruct (forallb has_from_param _); auto with trace.
Qed.

#[local] Hint Resolve extends_CompiledCKernel_init : trace.

(** The method under the decorator first asks for the typed and scheduled
    kernel of its argument; everything else it does comes later. *)
Lemma kernel_info_body_trace (self : CKernelExecutor env) (a : pykey)
    (w : world) :
  exists evs : list event,
    snd (kernel_info_body env self a w)
    = evs ++ EvGetTypedAndScheduledKernel a :: w.
Proof.
  unfold kernel_info_body. unfold M_bind at 1. unfold emit at 1.
  destruct (get_typed_and_scheduled_kernel env a) as [kernel|e];
    [|by exists []].
  match goal with
  | |- context [snd (?m (EvGetTypedAndScheduledKernel a :: w))] =>
      assert (Hm : extends_trace m)
  end.
  { trace_steps.
    - destruct (write_cl_truthy _); [|auto with trace].
      destruct (write_cl _); auto with trace.
    - destruct (edit_cl _); [|auto with trace].
      intros w0. by eexists [_]. }
  apply Hm.
Qed.

End TraceOfExecution.

(** ** What a build and a kernel info leave in the trace *)

Lemma build_Ok_inv (env : Collaborators) (self : CCompiler) (code : string)
    (w w' : world) (dll : CDLL) :
  build env self code w = (Ok dll, w') ->
  dll_path dll = scratch_library self /\
  w' = [ EvCDLL (scratch_library self);
         EvSubprocess
           (exe self :: link_args self (scratch_object self)
                          (scratch_library self))
           (tempdir self) (Some 0);
         EvSubprocess (exe self :: compile_args self (scratch_source self))
           (tempdir self) (Some 0);
         EvOpenWrite (scratch_source self) code ] ++ w.
Proof.
  unfold build, M_bind, open_write, CCompiler__call, ctypes_CDLL.
  fold (scratch_source self) (scratch_object self) (scratch_library self).
  intros H.
  destruct (os_open_write env w (scratch_source self));
    [|repeat case_match; done].
  destruct (os_subprocess env _ (exe self :: compile_args self _) _)
    as [rc1|]; [|repeat case_match; done].
  destruct (rc1 =? 0) eqn:H1; [|done]. apply Z.eqb_eq in H1; subst rc1.
  destruct (os_subprocess env _ (exe self :: link_args self _ _) _)
    as [rc2|]; [|repeat case_match; done].
  destruct (rc2 =? 0) eqn:H2; [|done]. apply Z.eqb_eq in H2; subst rc2.
  destruct (os_dlopen env _ (scratch_library self)) as [syms|];
    [|repeat case_match; done].
  by inversion H.
Qed.






(** ** C1: an empty array *)

(** For an empty array the placeholder is built by calling the parameter
    type itself on [0.0].  A floating-point value type accepts it ... *)
Lemma empty_array_at_float_value (t : simple_ctype) (data : Z) :
  is_float_ctype t = true ->
  marshal_arg (Array {| nd_size := 0; nd_data := data |}) (Simple t)
  = Ok (CNew (Simple t) (PyFloat 0%float)).
Proof. by destruct t. Qed.

(** ... an integer value type does not ... *)
Lemma empty_array_at_integer_value (t : simple_ctype) (data : Z) :
  is_integer_ctype t = true ->
  marshal_arg (Array {| nd_size := 0; nd_data := data |}) (Simple t)
  = Raise TypeError.
Proof. by destruct t. Qed.

(** ... and neither does any pointer type. *)
Lemma empty_array_at_pointer (t : ctype) (data : Z) :
  marshal_arg (Array {| nd_size := 0; nd_data := data |}) (POINTER t)
  = Raise TypeError.
Proof. reflexivity. Qed.

(** C1. The code at the input of the claim: a call whose first argument is
    an empty array, paired with a pointer parameter such as
    pointer-to-float32.  No zero of the base type is substituted: the
    pointer type is called on [0.0], ctypes raises [TypeError], and the
    native function is not entered (the trace is unchanged). *)
Theorem empty_array_at_pointer_parameter_raises (self : CompiledCKernel)
    (t : ctype) (ts : list ctype) (a : ndarray) (rest : list pyarg)
    (w : world) :
  fn_argtypes (_fn self) = POINTER t :: ts ->
  nd_size a = 0 ->
  marshal_arg (Array a) (POINTER t) <> Ok (CNew t (PyFloat 0%float)) /\
  CompiledCKernel_call self (Array a :: rest) w = (Raise TypeError, w).
Proof.
  intros Hty Hsize. destruct a as [size data]; simpl in Hsize; subst size.
  split; [by rewrite empty_array_at_pointer|].
  apply call_marshal_error. rewrite Hty. reflexivity.
Qed.

Lemma empty_array_at_pointer_parameter_raises_witness :
  marshal_arg (Array {| nd_size := 0; nd_data := 4096 |})
              (POINTER (Simple c_float))
  <> Ok (CNew (Simple c_float) (PyFloat 0%float)) /\
  CompiledCKernel_call sample_kernel
    [Array {| nd_size := 0; nd_data := 4096 |}; Scalar (PyInt 0)] []
  = (Raise TypeError, []).
Proof.
  apply (empty_array_at_pointer_parameter_raises sample_kernel
           (Simple c_float) [Simple c_int]
           {| nd_size := 0; nd_data := 4096 |} [Scalar (PyInt 0)] []);
    reflexivity.
Defined.

(** ** C2: the signature of a pointer and a value parameter *)

Lemma scalar_argument_marshalling (v : pyscalar) (arg_t : ctype) :
  marshal_arg (Scalar v) arg_t = ctype_call arg_t v.
Proof. reflexivity. Qed.

(** C2. Let the first declaration of a device program return [void] and
    have the parameters [a], a restrict pointer to float32, and [n], a
    const int32, let the registry of the target name these dtypes [float]
    and [int], and let the build succeed and export the kernel.  Then
    construction succeeds, and the parameter types of the native function
    are exactly pointer-to-[c_float] and [c_int], in this order.  In a call,
    an argument that is not an array is marshalled by calling its parameter
    type on the value itself: a non-empty array and an integer reach the
    native function as the cast data pointer and [c_int] of that integer. *)
Theorem signature_fidelity (env : Collaborators) (knl : DeviceProgram)
    (target : Target) (comp_ : CCompiler) (w w2 : world) (dll : CDLL)
    (fd : FunctionDeclaration) (rest : list FunctionDeclaration)
    (fname a n : string) :
  is_CTarget target = true ->
  registry_dtype_to_ctype target np_float32 = Ok "float" ->
  registry_dtype_to_ctype target np_int32 = Ok "int" ->
  dp_decls knl = fd :: rest ->
  fd_subdecl fd = Value "void" fname ->
  fd_arg_decls fd
  = [RestrictPointer (POD np_float32 a); Const (POD np_int32 n)] ->
  build env comp_ (dp_ast_str knl) w = (Ok dll, w2) ->
  dp_name knl ∈ dll_symbols dll ->
  exists self : CompiledCKernel,
    CompiledCKernel_init env knl target (Some comp_) w = (Ok self, w2) /\
    _arg_info self = [(a, POINTER (Simple c_float)); (n, Simple c_int)] /\
    fn_argtypes (_fn self) = [POINTER (Simple c_float); Simple c_int] /\
    fn_restype (_fn self) = None /\
    (forall v : pyscalar,
       marshal_arg (Scalar v) (Simple c_int) = ctype_call (Simple c_int) v) /\
    (forall (arr : ndarray) (z : Z) (w3 : world),
       nd_size arr <> 0 ->
       CompiledCKernel_call self [Array arr; Scalar (PyInt z)] w3
       = (Ok tt,
          EvNativeCall (dp_name knl)
            [CCast (POINTER (Simple c_float)) (nd_data arr);
             CNew (Simple c_int) (PyInt z)] :: w3)).
Proof.
  intros Ht Hf Hi Hd Hs Ha Hb Hin.
  assert (Hv : _visit_func_decl target fd []
               = (Ok tt, [(a, POINTER (Simple c_float)); (n, Simple c_int)])).
  { unfold _visit_func_decl. rewrite Ha. simpl. unfold M_bind.
    rewrite (visit_arg_classified target _
               {| pd_name := a; pd_baseType := np_float32;
                  pd_isPointer := true |}) by done.
    unfold append_outcome, _dtype_to_ctype; simpl. rewrite Hf; simpl.
    rewrite (visit_arg_classified target _
               {| pd_name := n; pd_baseType := np_int32;
                  pd_isPointer := false |}) by done.
    unfold append_outcome, _dtype_to_ctype; simpl. rewrite Hi; simpl.
    done. }
  eexists. split.
  - rewrite (CompiledCKernel_init_steps env knl target (Some comp_) w w w2
               comp_ dll fd rest _ Ht eq_refl Hb Hd Hv).
    rewrite Hs; simpl. unfold CDLL_getattr.
    rewrite bool_decide_eq_true_2 by done. reflexivity.
  - simpl. repeat split.
    intros arr z w3 Hsz. apply call_marshalled; [|simpl; lia].
    simpl. apply Z.eqb_neq in Hsz. by rewrite Hsz.
Qed.

Lemma signature_fidelity_witness :
  exists self : CompiledCKernel,
    CompiledCKernel_init (sample_env 0) sample_program sample_target
      (Some sample_compiler) []
    = (Ok self,
       snd (build (sample_env 0) sample_compiler (dp_ast_str sample_program) []))
    /\ fn_argtypes (_fn self) = [POINTER (Simple c_float); Simple c_int].
Proof.
  destruct (signature_fidelity (sample_env 0) sample_program sample_target
              sample_compiler []
              (snd (build (sample_env 0) sample_compiler
                      (dp_ast_str sample_program) []))
              {| dll_path := "/tmp/tmp_loopy/code.so";
                 dll_symbols := ["scale"] |}
              sample_func_decl [] "scale" "a" "n")
    as (self & Hinit & _ & Hty & _); try reflexivity.
  - simpl. apply list_elem_of_here.
  - exists self. split; [exact Hinit | exact Hty].
Defined.

(** ** C3: classification of the declared parameters *)

(** C3, as the claim has it, fails: a const-wrapped pointer without
    restrict is none of the three shapes, and construction does not end
    with the error for an unhandled argument but with the attribute error
    of the missing [dtype]. *)
Lemma unsupported_shape_not_reported_as_such :
  classify (Const (Pointer (POD np_float32 "a"))) = None /\
  visit_arg sample_target (Const (Pointer (POD np_float32 "a"))) []
  = (Raise (AttributeError "dtype"), []) /\
  visit_arg sample_target (Const (Pointer (POD np_float32 "a"))) []
  <> (Raise (ValueError_unhandled_arg (Const (Pointer (POD np_float32 "a")))),
      []).
Proof. repeat split; done. Qed.

(** C3, amended. A restrict pointer to a plain scalar, and the same under
    const, are registered as pointer parameters, and a const plain scalar
    as a value parameter.  Registering appends the name and the native type
    when the dtype of the scalar has a ctypes type, and otherwise raises
    the exception of that lookup and appends nothing ([append_outcome]).
    Every other shape ends the visit with an exception and
    appends nothing: the error for an unhandled argument when the
    declarator is neither const nor a restrict pointer, and the attribute
    error of the missing [dtype] when const or a restrict pointer wraps
    something else than a plain scalar.  No bridge is constructed from a
    declaration that has such a parameter at any position. *)
Theorem parameter_classification (target : Target) (d : decl)
    (st : arg_info) :
  classify d = None ->
  (forall (dt : dtype) (n : string) (st' : arg_info),
     visit_arg target (RestrictPointer (POD dt n)) st'
     = append_outcome target n dt true st' /\
     visit_arg target (Const (RestrictPointer (POD dt n))) st'
     = append_outcome target n dt true st' /\
     visit_arg target (Const (POD dt n)) st'
     = append_outcome target n dt false st') /\
  visit_arg target d st = (Raise (unsupported_shape_error d), st) /\
  (isinstance_Const d = false -> isinstance_RestrictPointer d = false ->
   visit_arg target d st = (Raise (ValueError_unhandled_arg d), st)) /\
  forall (env : Collaborators) (knl : DeviceProgram)
         (comp : option CCompiler) (w : world) (fd : FunctionDeclaration)
         (rest : list FunctionDeclaration),
    dp_decls knl = fd :: rest ->
    d ∈ fd_arg_decls fd ->
    is_Ok (fst (CompiledCKernel_init env knl target comp w)) = false.
Proof.
  intros Hc. split; [|split; [|split]].
  - intros dt n st'. repeat split; by apply visit_arg_classified.
  - by apply visit_arg_unclassified.
  - intros H1 H2. rewrite visit_arg_unclassified by done.
    unfold unsupported_shape_error. by rewrite H1, H2.
  - intros env knl comp w fd rest Hd Hin.
    destruct (CompiledCKernel_init env knl target comp w)
      as [[self|e] w2] eqn:Hinit; [|done].
    destruct (init_Ok_all_classified _ _ _ _ _ _ _ _ _ _ Hinit Hd Hin)
      as [pd Hpd].
    congruence.
Qed.

Lemma parameter_classification_witness :
  visit_arg sample_target (Pointer (POD np_float32 "a")) []
  = (Raise (ValueError_unhandled_arg (Pointer (POD np_float32 "a"))), []).
Proof.
  destruct (parameter_classification sample_target
              (Pointer (POD np_float32 "a")) []) as (_ & _ & H & _);
    [reflexivity|].
  apply H; reflexivity.
Defined.

(** ** C4: the return type *)

(** C4. Take any input with which construction succeeds when the return
    type name of the declaration is [void].  With return type name
    [restype] in its place, construction fails exactly when [restype] is
    not [void], the failure then being the error for an unhandled return
    type; and with [void] the object records [None], the absence of a
    return value, as the return type of the object and of the native
    function. *)
Theorem return_type_gate (env : Collaborators) (knl : DeviceProgram)
    (target : Target) (comp : option CCompiler) (w : world)
    (restype : string) :
  is_Ok (fst (CompiledCKernel_init env (set_return_type "void" knl) target
                comp w)) = true ->
  (is_Ok (fst (CompiledCKernel_init env (set_return_type restype knl) target
                 comp w)) = false <-> restype <> "void") /\
  (restype <> "void" ->
   fst (CompiledCKernel_init env (set_return_type restype knl) target comp w)
   = Raise (ValueError_unhandled_restype restype)) /\
  (restype = "void" ->
   exists (self : CompiledCKernel) (w' : world),
     CompiledCKernel_init env (set_return_type restype knl) target comp w
     = (Ok self, w') /\
     ck_restype self = None /\ fn_restype (_fn self) = None).
Proof.
  intros Hok.
  destruct (CompiledCKernel_init env (set_return_type "void" knl) target
              comp w) as [[self|e] w2] eqn:Hvoid; [|done].
  destruct (CompiledCKernel_init_inv _ _ _ _ _ _ _ Hvoid)
    as (w1 & comp_ & dll & fd & rest & ai & fname &
        Ht & Hc & Hb & Hd & Hv & Hs & Hin & Hself).
  assert (Hfail : restype <> "void" ->
    CompiledCKernel_init env (set_return_type restype knl) target comp w
    = (Raise (ValueError_unhandled_restype restype), w2)).
  { intros Hne. unfold set_return_type in Hd, Hb, Hin |- *.
    destruct (dp_decls knl) as [|fd0 rest0] eqn:Hd0.
    - exfalso. unfold set_return_type in Hvoid. rewrite Hd0 in Hvoid.
      unfold CompiledCKernel_init, M_bind, M_ret, M_lift in Hvoid.
      rewrite Ht in Hvoid; simpl in Hvoid. rewrite Hc in Hvoid.
      simpl in Hb. rewrite Hb, Hd0 in Hvoid. done.
    - simpl in Hd, Hb. inversion Hd; subst fd rest.
      rewrite (CompiledCKernel_init_steps env _ target comp w w1 w2 comp_ dll
                 {| fd_subdecl := Value restype (decl_name (fd_subdecl fd0));
                    fd_arg_decls := fd_arg_decls fd0 |} rest0 ai);
        try done.
      simpl. apply String.eqb_neq in Hne. by rewrite Hne. }
  split; [|split].
  - split.
    + intros Hfalse Heq. subst restype. by rewrite Hvoid in Hfalse.
    + intros Hne. by rewrite (Hfail Hne).
  - intros Hne. by rewrite (Hfail Hne).
  - intros ->. exists self, w2. split; [done|]. by subst self.
Qed.

Lemma return_type_gate_witness :
  fst (CompiledCKernel_init (sample_env 0) (set_return_type "int" sample_program)
         sample_target (Some sample_compiler) [])
  = Raise (ValueError_unhandled_restype "int").
Proof.
  destruct (return_type_gate (sample_env 0) sample_program sample_target
              (Some sample_compiler) [] "int") as (_ & H & _);
    [reflexivity|].
  apply H. discriminate.
Defined.

(** ** C5, C6: the memoized [kernel_info] *)

Section Memoization.

Variable env : Collaborators.


Lemma kernel_info_miss (self : CKernelExecutor env) (key : list pykey)
    (a : pykey) (w : world) :
  _memoize_dic_kernel_info env self !! key = None ->
  bind_kernel_info_args key = Ok a ->
  kernel_info env key (self, w)
  = match kernel_info_body env self a w with
    | (Ok info, w') =>
        (Ok info,
         (set_memoize_dic env self
            (<[key := info]> (_memoize_dic_kernel_info env self)), w'))
    | (Raise e, w') => (Raise e, (self, w'))
    end.
Proof. intros H Hb. unfold kernel_info. by rewrite H, Hb. Qed.

(** A new executor has nothing memoized. *)
Lemma new_executor_nothing_cached (options : Options) (target : Target)
    (compiler_arg : option CCompiler) (self : CKernelExecutor env)
    (w w1 : world) (key : list pykey) :
  CKernelExecutor_init env options target compiler_arg w = (Ok self, w1) ->
  _memoize_dic_kernel_info env self !! key = None.
Proof.
  unfold CKernelExecutor_init, M_bind, M_ret.
  destruct (comp_or_default env compiler_arg w) as [[c|e] w0]; [|done].
  intros [= <- _]. apply lookup_empty.
Qed.

(** A value that [kernel_info] returns is in the dictionary afterwards, and
    the dictionary only gains the entry of the key. *)
Lemma kernel_info_Ok_cached (self self1 : CKernelExecutor env)
    (key : list pykey) (info : KernelInfo env) (w w1 : world) :
  kernel_info env key (self, w) = (Ok info, (self1, w1)) ->
  _memoize_dic_kernel_info env self1 !! key = Some info /\
  forall key', key' <> key ->
    _memoize_dic_kernel_info env self1 !! key'
    = _memoize_dic_kernel_info env self !! key'.
Proof.
  unfold kernel_info.
  destruct (_memoize_dic_kernel_info env self !! key) as [info0|] eqn:Hl.
  - intros [= <- <- <-]. done.
  - destruct (bind_kernel_info_args key) as [a|]; [|done].
    destruct (kernel_info_body env self a w) as [[info0|e] w']; [|done].
    intros [= <- <- <-]. simpl. split.
    + apply lookup_insert_eq.
    + intros key' Hne. by apply lookup_insert_ne.
Qed.

(** An exception of [kernel_info] leaves the executor as it was, and the
    key was not in the dictionary. *)
Lemma kernel_info_Raise_unchanged (self self1 : CKernelExecutor env)
    (key : list pykey) (e : exn) (w w1 : world) :
  kernel_info env key (self, w) = (Raise e, (self1, w1)) ->
  self1 = self /\ _memoize_dic_kernel_info env self !! key = None.
Proof.
  unfold kernel_info.
  destruct (_memoize_dic_kernel_info env self !! key) as [info0|] eqn:Hl;
    [done|].
  destruct (bind_kernel_info_args key) as [a|]; [|by intros [= _ <- _]].
  destruct (kernel_info_body env self a w) as [[info0|e0] w']; [done|].
  by intros [= _ <- _].
Qed.


(** C6. When [kernel_info] ends with an exception for an argument tuple,
    nothing is stored: the executor, and with it the dictionary, is as
    before, and the tuple has no entry.  A later request for the same tuple
    is therefore not answered from the dictionary: the method runs again
    from its first step, and its outcome, value or exception, is the outcome
    of the request. *)
Theorem failed_build_not_cached (self self1 : CKernelExecutor env)
    (key : list pykey) (a : pykey) (e : exn) (w w1 : world) :
  bind_kernel_info_args key = Ok a ->
  kernel_info env key (self, w) = (Raise e, (self1, w1)) ->
  self1 = self /\
  _memoize_dic_kernel_info env self1 !! key = None /\
  forall w2 : world,
    kernel_info env key (self1, w2)
    = match kernel_info_body env self1 a w2 with
      | (Ok info, w') =>
          (Ok info,
           (set_memoize_dic env self1
              (<[key := info]> (_memoize_dic_kernel_info env self1)), w'))
      | (Raise e', w') => (Raise e', (self1, w'))
      end /\
    exists evs : list event,
      snd (snd (kernel_info env key (self1, w2)))
      = evs ++ EvGetTypedAndScheduledKernel a :: w2.
Proof.
  intros Hbind Hfail.
  destruct (kernel_info_Raise_unchanged _ _ _ _ _ _ Hfail) as [-> Hnone].
  split; [done|]. split; [done|]. intros w2.
  pose proof (kernel_info_miss self key a w2 Hnone Hbind) as Hmiss.
  split; [done|]. rewrite Hmiss.
  destruct (kernel_info_body_trace env self a w2) as [evs Hevs].
  exists evs. by destruct (kernel_info_body env self a w2) as [[info|e'] w'].
Qed.

End Memoization.

(** The sample executor at work: a first request builds ... *)
Lemma sample_first_request :
  kernel_info (sample_env 0) [sample_signature] (sample_executor 0, [])
  = (Ok sample_info,
     (set_memoize_dic _ (sample_executor 0)
        (<[ [sample_signature] := sample_info ]> ∅),
      EvCDLL "/tmp/tmp_loopy/code.so" :: sample_trace 0)).
Proof. by rewrite (kernel_info_miss _ _ _ sample_signature). Qed.

(** ... and with a failing compiler it raises, after the compile step. *)
Lemma sample_failing_request :
  kernel_info (sample_env 1) [sample_signature] (sample_executor 1, [])
  = (Raise (CalledProcessError 1
              ["gcc"; "-std=c99"; "-g"; "-O3"; "-fPIC"; "-c";
               "/tmp/tmp_loopy/code.c"]),
     (sample_executor 1, tail (sample_trace 1))).
Proof. by rewrite (kernel_info_miss _ _ _ sample_signature). Qed.

Lemma sample_kwargs_signature (rc : Z) :
  arg_to_dtype_set (sample_env rc) sample_kwargs = sample_signature.
Proof. reflexivity. Qed.


Lemma failed_build_not_cached_witness :
  _memoize_dic_kernel_info _ (sample_executor 1) !! [sample_signature] = None
  /\
  forall w2 : world,
    exists evs : list event,
      snd (snd (kernel_info (sample_env 1) [sample_signature]
                  (sample_executor 1, w2)))
      = evs ++ EvGetTypedAndScheduledKernel sample_signature :: w2.
Proof.
  destruct (failed_build_not_cached (sample_env 1) (sample_executor 1) _
              [sample_signature] sample_signature _ [] _
              eq_refl sample_failing_request) as (_ & Hnone & Hagain).
  split; [exact Hnone|]. intros w2. exact (proj2 (Hagain w2)).
Defined.

(** ** C7: the signature of a constructed bridge *)

(** C7. For a bridge that construction returned: the return type of the
    native function is the absent value; its parameter types are the types
    of [_arg_info], as many as the declaration has parameters and in their
    order, each entry extracted from the parameter at its position; and no
    sequence of method invocations on the object changes the function
    pointer with its signature, so that every later call marshals against
    the signature of construction. *)
Theorem signature_fixed_at_construction (env : Collaborators)
    (knl : DeviceProgram) (target : Target) (comp : option CCompiler)
    (w w2 : world) (self : CompiledCKernel) :
  CompiledCKernel_init env knl target comp w = (Ok self, w2) ->
  exists fd : FunctionDeclaration,
    head (dp_decls knl) = Some fd /\
    fn_restype (_fn self) = None /\
    fn_argtypes (_fn self) = map snd (_arg_info self) /\
    length (fn_argtypes (_fn self)) = length (fd_arg_decls fd) /\
    Forall2 (extracted_from target) (fd_arg_decls fd) (_arg_info self) /\
    forall (ms : list method) (w3 : world),
      _fn (fst (invoke_methods ms (self, w3))) = _fn self /\
      forall (args : list pyarg) (w4 : world),
        CompiledCKernel_call (fst (invoke_methods ms (self, w3))) args w4
        = CompiledCKernel_call self args w4.
Proof.
  intros Hinit.
  destruct (CompiledCKernel_init_inv _ _ _ _ _ _ _ Hinit)
    as (w1 & comp_ & dll & fd & rest & ai & fname &
        Ht & Hc & Hb & Hd & Hv & Hs & Hin & ->).
  destruct (visit_all_Ok_inv _ _ _ _ Hv) as (added & Hai & Hall).
  simpl in Hai; subst added.
  exists fd. simpl. rewrite Hd. repeat split; try done.
  - rewrite length_map. symmetry. by eapply Forall2_length.
  - apply invoke_methods_fn.
  - intros args w4. apply call_depends_on_fn, invoke_methods_fn.
Qed.

Lemma signature_fixed_at_construction_witness :
  exists fd : FunctionDeclaration,
    head (dp_decls sample_program) = Some fd /\
    fn_argtypes (_fn sample_kernel) = map snd (_arg_info sample_kernel) /\
    forall (ms : list method) (w3 : world),
      _fn (fst (invoke_methods ms (sample_kernel, w3))) = _fn sample_kernel.
Proof.
  destruct (signature_fixed_at_construction (sample_env 0) sample_program
              sample_target (Some sample_compiler) []
              (snd (build (sample_env 0) sample_compiler
                      (dp_ast_str sample_program) []))
              sample_kernel eq_refl)
    as (fd & Hhd & _ & Hty & _ & _ & Hfix).
  exists fd. split; [exact Hhd|]. split; [exact Hty|].
  intros ms w3. exact (proj1 (Hfix ms w3)).
Defined.

(** ** C8: the argument vectors of the compile and link steps *)

(** C8. For every compiler instance, [compile_args] is the configured
    compile flags followed by [-c] and the source path, and [link_args] is
    the configured link flags followed by [-shared], the object path, [-o]
    and the library path.  Both are functions of the flags and of their
    arguments alone: no other attribute of the instance and no state enters
    the result. *)
Theorem compile_and_link_args (cls : CompilerClass) (exe_ tempdir_ : string)
    (cflags_ ldflags_ : list string) (c_fname obj_fname dll_fname : string) :
  let self := {| class_of := cls; exe := exe_; cflags := cflags_;
                 ldflags := ldflags_; tempdir := tempdir_ |} in
  compile_args self c_fname = cflags_ ++ ["-c"; c_fname] /\
  link_args self obj_fname dll_fname
  = ldflags_ ++ ["-shared"; obj_fname; "-o"; dll_fname] /\
  length (compile_args self c_fname) = (length cflags_ + 2)%nat /\
  length (link_args self obj_fname dll_fname) = (length ldflags_ + 4)%nat.
Proof.
  simpl. unfold compile_args, link_args; simpl.
  rewrite !length_app; simpl. done.
Qed.

Example compile_args_default :
  compile_args sample_compiler "/tmp/tmp_loopy/code.c"
  = ["-std=c99"; "-g"; "-O3"; "-fPIC"; "-c"; "/tmp/tmp_loopy/code.c"].
Proof. reflexivity. Qed.

Example link_args_default :
  link_args sample_compiler "code.o" "code.so"
  = ["-shared"; "-shared"; "code.o"; "-o"; "code.so"].
Proof. reflexivity. Qed.

(** ** C9: more arguments than parameters *)

(** C9. When a call passes more positional arguments than the bridge has
    parameter types, the call behaves exactly like the call with the first
    [n] arguments, [n] being the number of parameter types: whatever the
    surplus arguments are, they are neither marshalled nor reported, and
    when the first [n] arguments marshal, exactly these [n] native values
    are passed to the native function. *)
Theorem surplus_arguments_dropped (self : CompiledCKernel) (args : list pyarg)
    (w : world) :
  (length (fn_argtypes (_fn self)) < length args)%nat ->
  CompiledCKernel_call self args w
  = CompiledCKernel_call self (take (length (fn_argtypes (_fn self))) args) w
  /\
  forall args_ : list cdata,
    marshal_args (zip (take (length (fn_argtypes (_fn self))) args)
                      (fn_argtypes (_fn self))) = Ok args_ ->
    length args_ = length (fn_argtypes (_fn self)) /\
    CompiledCKernel_call self args w
    = (Ok tt, EvNativeCall (fn_symbol (_fn self)) args_ :: w).
Proof.
  intros Hlt. split.
  - unfold CompiledCKernel_call. by rewrite <- zip_take_length.
  - intros args_ Hm. rewrite <- zip_take_length in Hm. split.
    + rewrite (marshal_args_length _ _ Hm), length_zip_with. lia.
    + apply call_marshalled; [done | lia].
Qed.

Lemma surplus_arguments_dropped_witness :
  CompiledCKernel_call sample_kernel
    [Array {| nd_size := 4; nd_data := 4096 |}; Scalar (PyInt 4);
     Scalar PyNone; Array {| nd_size := 0; nd_data := 0 |}] []
  = (Ok tt,
     [EvNativeCall "scale"
        [CCast (POINTER (Simple c_float)) 4096; CNew (Simple c_int) (PyInt 4)]]).
Proof.
  pose proof (surplus_arguments_dropped sample_kernel
    [Array {| nd_size := 4; nd_data := 4096 |}; Scalar (PyInt 4);
     Scalar PyNone; Array {| nd_size := 0; nd_data := 0 |}] []) as H.
  destruct H as [_ H]; [simpl; lia|].
  destruct (H [CCast (POINTER (Simple c_float)) 4096;
               CNew (Simple c_int) (PyInt 4)]) as [_ Hcall];
    [reflexivity|].
  exact Hcall.
Defined.

(** ** C10: explicitly empty flag lists *)

Lemma CCompiler_init_total (env : Collaborators) (cls : CompilerClass)
    (cc : option string) (cf lf : option (list string)) (w : world) :
  CCompiler_init env cls cc cf lf w
  = (Ok {| class_of := cls; exe := str_or cc (default_exe cls);
           cflags := list_or cf (default_compile_flags cls);
           ldflags := list_or lf (default_link_flags cls);
           tempdir := os_mkdtemp env w "tmp_loopy" |},
     EvMkdtemp "tmp_loopy" (os_mkdtemp env w "tmp_loopy") :: w).
Proof. reflexivity. Qed.

Lemma list_or_nonempty {A : Type} (o : option (list A)) (d : list A) :
  d <> [] -> list_or o d <> [].
Proof. destruct o as [[|x l]|]; simpl; congruence. Qed.

(** C10. With the class [CCompiler] or [CppCompiler], the constructor never
    yields an instance without compile flags or without link flags: an
    explicitly passed empty list is replaced by the defaults of the class,
    like an omitted one. *)
Theorem empty_flags_unobtainable (env : Collaborators) (cls : CompilerClass)
    (cc : option string) (cf lf : option (list string)) (w : world) :
  cls = CCompiler_class \/ cls = CppCompiler_class ->
  exists (self : CCompiler) (w' : world),
    CCompiler_init env cls cc cf lf w = (Ok self, w') /\
    cflags self <> [] /\ ldflags self <> [] /\
    (cf = Some [] -> cflags self = default_compile_flags cls) /\
    (lf = Some [] -> ldflags self = default_link_flags cls).
Proof.
  intros Hcls. eexists _, _. split; [apply CCompiler_init_total|]. simpl.
  repeat split.
  - apply list_or_nonempty. by destruct Hcls as [-> | ->].
  - apply list_or_nonempty. by destruct Hcls as [-> | ->].
  - by intros ->.
  - by intros ->.
Qed.

Lemma empty_flags_unobtainable_witness :
  exists (self : CCompiler) (w' : world),
    CCompiler_init (sample_env 0) CppCompiler_class None (Some []) (Some []) []
    = (Ok self, w') /\
    cflags self <> [] /\ ldflags self <> [] /\
    (Some (@nil string) = Some [] -> cflags self = default_compile_flags CppCompiler_class) /\
    (Some (@nil string) = Some [] -> ldflags self = default_link_flags CppCompiler_class).
Proof.
  apply (empty_flags_unobtainable (sample_env 0) CppCompiler_class None
           (Some []) (Some []) []).
  right. reflexivity.
Defined.

(* ================================================================== *)
(** * Further properties of the module                                  *)
(* ================================================================== *)

(** ** CCompiler.build *)

(** X1. When [build] returns a library, exactly four things happened, in
    this order: the code was written to the source file of the scratch
    directory, the compiler ran there on [compile_args] and ended with
    status 0, the linker ran there on [link_args] and ended with status 0,
    and the shared library of the scratch directory was loaded, which is
    the library returned. *)
Theorem build_success_effects (env : Collaborators) (self : CCompiler)
    (code : string) (w w' : world) (dll : CDLL) :
  build env self code w = (Ok dll, w') ->
  dll_path dll = scratch_library self /\
  w' = [ EvCDLL (scratch_library self);
         EvSubprocess
           (exe self :: ldflags self ++
              ["-shared"; scratch_object self; "-o"; scratch_library self])
           (tempdir self) (Some 0);
         EvSubprocess
           (exe self :: cflags self ++ ["-c"; scratch_source self])
           (tempdir self) (Some 0);
         EvOpenWrite (scratch_source self) code ] ++ w.
Proof. apply build_Ok_inv. Qed.

Lemma build_success_effects_witness :
  dll_path {| dll_path := "/tmp/tmp_loopy/code.so"; dll_symbols := ["scale"] |}
  = scratch_library sample_compiler /\
  EvCDLL "/tmp/tmp_loopy/code.so" :: firstn 3 (sample_trace 0)
  = [ EvCDLL (scratch_library sample_compiler);
      EvSubprocess
        (exe sample_compiler :: ldflags sample_compiler ++
           ["-shared"; scratch_object sample_compiler; "-o";
            scratch_library sample_compiler])
        (tempdir sample_compiler) (Some 0);
      EvSubprocess
        (exe sample_compiler :: cflags sample_compiler ++
           ["-c"; scratch_source sample_compiler])
        (tempdir sample_compiler) (Some 0);
      EvOpenWrite (scratch_source sample_compiler) (dp_ast_str sample_program) ] ++ [].
Proof.
  apply (build_success_effects (sample_env 0) sample_compiler (dp_ast_str sample_program) []).
  reflexivity.
Defined.

(** X2. When the compiler ends with a status other than 0, [build] raises
    [CalledProcessError] with that status and the compiler's command line;
    the linker is not run and no library is loaded: the trace gains the
    written source and the one compiler run, nothing else. *)
Theorem build_stops_at_failed_compile (env : Collaborators) (self : CCompiler)
    (code : string) (w : world) (rc : Z) :
  os_open_write env w (scratch_source self) = true ->
  os_subprocess env (EvOpenWrite (scratch_source self) code :: w)
    (exe self :: compile_args self (scratch_source self)) (tempdir self)
  = Some rc ->
  rc <> 0 ->
  build env self code w
  = (Raise (CalledProcessError rc
              (exe self :: compile_args self (scratch_source self))),
     [ EvSubprocess (exe self :: compile_args self (scratch_source self))
         (tempdir self) (Some rc);
       EvOpenWrite (scratch_source self) code ] ++ w).
Proof.
  intros Hw Hrc Hne.
  unfold build, M_bind, open_write, CCompiler__call.
  fold (scratch_source self). rewrite Hw, Hrc.
  apply Z.eqb_neq in Hne. by rewrite Hne.
Qed.

Lemma build_stops_at_failed_compile_witness :
  build (sample_env 1) sample_compiler "int x;" []
  = (Raise (CalledProcessError 1
              (exe sample_compiler
                 :: compile_args sample_compiler
                      (scratch_source sample_compiler))),
     [ EvSubprocess
         (exe sample_compiler
            :: compile_args sample_compiler (scratch_source sample_compiler))
         (tempdir sample_compiler) (Some 1);
       EvOpenWrite (scratch_source sample_compiler) "int x;" ] ++ []).
Proof.
  apply (build_stops_at_failed_compile (sample_env 1) sample_compiler
           "int x;" [] 1); [reflexivity | reflexivity | discriminate].
Defined.

Lemma build_Raise_inv (env : Collaborators) (self : CCompiler) (code : string)
    (w w' : world) (e : exn) :
  build env self code w = (Raise e, w') ->
  is_toolchain_error e = true /\
  exists evs : list event,
    w' = evs ++ w /\ forallb (fun ev => negb (is_load_event ev)) evs = true.
Proof.
  unfold build, M_bind, open_write, CCompiler__call, ctypes_CDLL.
  fold (scratch_source self) (scratch_object self) (scratch_library self).
  intros H.
  destruct (os_open_write env w (scratch_source self)).
  2:{ destruct (has_nul (scratch_source self));
        [inversion H; split; [done | by exists []]|].
      destruct (os_write_failure env w _ code); inversion H;
        (split; [done|]); [by exists [] | by eexists [_]]. }
  destruct (os_subprocess env _ (exe self :: compile_args self _) _)
    as [rc1|].
  2:{ destruct (has_nul _ || existsb has_nul _)%bool; inversion H;
        (split; [done | by eexists [_; _]]). }
  destruct (rc1 =? 0) eqn:H1;
    [|inversion H; split; [done | by eexists [_; _]]].
  destruct (os_subprocess env _ (exe self :: link_args self _ _) _)
    as [rc2|].
  2:{ destruct (has_nul _ || existsb has_nul _)%bool; inversion H;
        (split; [done | by eexists [_; _; _]]). }
  destruct (rc2 =? 0) eqn:H2;
    [|inversion H; split; [done | by eexists [_; _; _]]].
  destruct (os_dlopen env _ (scratch_library self)) as [syms|]; [done|].
  destruct (has_nul (scratch_library self)); inversion H;
    (split; [done | by eexists [_; _; _]]).
Qed.

(** X3. Whenever [build] raises, whatever the step that failed, no library
    has been loaded: the trace grew by the events of the steps that ran,
    and none of them is a load. *)
Theorem build_failure_loads_nothing (env : Collaborators)
    (self : CCompiler) (code : string) (w w' : world) (e : exn) :
  build env self code w = (Raise e, w') ->
  exists evs : list event,
    w' = evs ++ w /\ forallb (fun ev => negb (is_load_event ev)) evs = true.
Proof. intros H. by destruct (build_Raise_inv _ _ _ _ _ _ H) as [_ Hevs]. Qed.

Lemma build_failure_loads_nothing_witness :
  exists evs : list event,
    [ EvSubprocess
        (exe sample_compiler
           :: compile_args sample_compiler (scratch_source sample_compiler))
        (tempdir sample_compiler) (Some 1);
      EvOpenWrite (scratch_source sample_compiler) "int x;" ]
    = evs ++ [] /\
    forallb (fun ev => negb (is_load_event ev)) evs = true.
Proof.
  apply (build_failure_loads_nothing (sample_env 1) sample_compiler
           "int x;" [] _
           (CalledProcessError 1
              (exe sample_compiler
                 :: compile_args sample_compiler
                      (scratch_source sample_compiler)))).
  reflexivity.
Defined.

(** ** The files of the scratch directory *)

Lemma string_app_inj (p x y : string) : p +:+ x = p +:+ y -> x = y.
Proof. induction p as [|c p IH]; simpl; [done|]. intros [= H]. by apply IH. Qed.

Lemma os_path_join_inj (a b1 b2 : string) :
  starts_with_slash b1 = false -> starts_with_slash b2 = false ->
  os_path_join a b1 = os_path_join a b2 -> b1 = b2.
Proof.
  unfold os_path_join. intros -> ->.
  destruct (String.eqb a "" || ends_with_slash a)%bool.
  - apply string_app_inj.
  - intros H. apply string_app_inj in H. by apply (string_app_inj "/") in H.
Qed.

(** X4. Whatever the scratch directory is, the source, object and library
    files of a build are three different paths, as long as the source
    suffix of the class is neither [o] nor [so]; this holds for the two
    classes of the module.  So no step of a build overwrites the input or
    the output of another. *)
Theorem scratch_files_distinct (self : CCompiler) :
  source_suffix (class_of self) <> "o" ->
  source_suffix (class_of self) <> "so" ->
  scratch_source self <> scratch_object self /\
  scratch_source self <> scratch_library self /\
  scratch_object self <> scratch_library self.
Proof.
  intros Ho Hso. unfold scratch_source, scratch_object, scratch_library,
    _tempname.
  repeat split; intros H; apply os_path_join_inj in H; try done.
  - apply (string_app_inj "code.") in H. done.
  - apply (string_app_inj "code.") in H. done.
Qed.

Lemma scratch_files_distinct_witness :
  scratch_source sample_compiler <> scratch_object sample_compiler /\
  scratch_source sample_compiler <> scratch_library sample_compiler /\
  scratch_object sample_compiler <> scratch_library sample_compiler.
Proof.
  apply (scratch_files_distinct sample_compiler); discriminate.
Defined.

(** ** _dtype_to_ctype *)

Lemma assoc_get_Some_key {A : Type} (k : string) (l : list (string * A))
    (v : A) :
  assoc_get k l = Some v -> k ∈ l.*1.
Proof.
  induction l as [|[k' v'] l IH]; simpl; [done|].
  destruct (String.eqb k k') eqn:Hk.
  - apply String.eqb_eq in Hk; subst. intros _. apply list_elem_of_here.
  - intros H. apply list_elem_of_further. by apply IH.
Qed.

Lemma has_space_app (p s : string) :
  has_space s = true -> has_space (p +:+ s) = true.
Proof.
  intros H. induction p as [|c p IH]; simpl; [done|].
  rewrite IH. apply orb_true_r.
Qed.

Lemma ctypes_names_have_no_space (attr : string) :
  has_space attr = true -> assoc_get attr ctypes_namespace = None.
Proof.
  intros Hsp. destruct (assoc_get attr ctypes_namespace) as [t|] eqn:H;
    [|done].
  apply assoc_get_Some_key in H.
  assert (Hall : Forall (fun k => has_space k = false) ctypes_namespace.*1).
  { repeat constructor. }
  rewrite Forall_forall in Hall. apply Hall in H. congruence.
Qed.

(** X6. A dtype whose C type name in the registry has a blank in it
    ([unsigned char], [long long], ...) has no ctypes type: the lookup of
    [c_] followed by that name in [ctypes] raises [AttributeError], for a
    value and for a pointer parameter alike.  Only the name [unsigned]
    itself is renamed (to [uint]). *)
Theorem spaced_type_name_has_no_ctype (target : Target) (dt : dtype)
    (typename : string) (pointer : bool) :
  registry_dtype_to_ctype target dt = Ok typename ->
  has_space typename = true ->
  _dtype_to_ctype target dt pointer = Raise (AttributeError ("c_" +:+ typename)).
Proof.
  intros Hreg Hsp. unfold _dtype_to_ctype. rewrite Hreg.
  destruct (String.eqb typename "unsigned") eqn:Hu.
  - apply String.eqb_eq in Hu; subst. done.
  - unfold ctypes_getattr.
    by rewrite (ctypes_names_have_no_space _ (has_space_app "c_" _ Hsp)).
Qed.

Lemma spaced_type_name_has_no_ctype_witness :
  _dtype_to_ctype sample_target np_uint8 true
  = Raise (AttributeError ("c_" +:+ "unsigned char")).
Proof.
  apply (spaced_type_name_has_no_ctype sample_target np_uint8
           "unsigned char" true); reflexivity.
Defined.

(** ** The visitors and [_arg_info] *)

Lemma classify_name (d : decl) (pd : ParameterDescriptor) :
  classify d = Some pd -> pd_name pd = decl_name d.
Proof.
  destruct d as [| |s|s|s|s|s c]; try done; simpl.
  - destruct s as [dt n| |s'|s'|s'|s'|s' c']; try done.
    + by intros [= <-].
    + destruct s' as [dt n| | | | | |]; try done. by intros [= <-].
  - destruct s as [dt n| | | | | |]; try done. by intros [= <-].
Qed.

Lemma extracted_names (target : Target) (l : list decl) (ai : arg_info) :
  Forall2 (extracted_from target) l ai -> map fst ai = map decl_name l.
Proof.
  induction 1 as [|d entry l ai (pd & Hc & Hn & _) _ IH]; [done|].
  cbn [map]. by rewrite IH, Hn, (classify_name _ _ Hc).
Qed.

(** X7. In a constructed bridge the names recorded in [_arg_info] are the
    names of the declared parameters, in the order of the declaration;
    nested declarators contribute the name of the scalar they wrap. *)
Theorem parameter_names_in_order (env : Collaborators) (knl : DeviceProgram)
    (target : Target) (comp : option CCompiler) (w w2 : world)
    (self : CompiledCKernel) (fd : FunctionDeclaration)
    (rest : list FunctionDeclaration) :
  CompiledCKernel_init env knl target comp w = (Ok self, w2) ->
  dp_decls knl = fd :: rest ->
  map fst (_arg_info self) = map decl_name (fd_arg_decls fd).
Proof.
  intros Hinit Hd.
  destruct (CompiledCKernel_init_inv _ _ _ _ _ _ _ Hinit)
    as (w1 & comp_ & dll & fd' & rest' & ai & fname &
        _ & _ & _ & Hd' & Hv & _ & _ & ->).
  rewrite Hd in Hd'. inversion Hd'; subst fd' rest'.
  destruct (visit_all_Ok_inv _ _ _ _ Hv) as (added & Hai & Hall).
  simpl in Hai; subst added. simpl. by apply (extracted_names target).
Qed.

Lemma parameter_names_in_order_witness :
  map fst (_arg_info sample_kernel) = map decl_name (fd_arg_decls sample_func_decl).
Proof.
  apply (parameter_names_in_order (sample_env 0) sample_program sample_target
           (Some sample_compiler) []
           (snd (build (sample_env 0) sample_compiler
                   (dp_ast_str sample_program) []))
           sample_kernel sample_func_decl []); reflexivity.
Defined.

Lemma append_outcome_extends (target : Target) (n : string) (dt : dtype)
    (p : bool) (st : arg_info) :
  exists added, snd (append_outcome target n dt p st) = st ++ added.
Proof.
  unfold append_outcome. destruct (_dtype_to_ctype target dt p).
  - by eexists [_].
  - exists []. by rewrite app_nil_r.
Qed.

Lemma _visit_pointer_extends (target : Target) (node : decl) (st : arg_info) :
  exists added, snd (_visit_pointer target node st) = st ++ added.
Proof.
  unfold _visit_pointer, M_bind, M_lift.
  destruct (decl_subdecl node) as [pod|]; [|exists []; by rewrite app_nil_r].
  destruct (decl_dtype pod) as [dt|]; [|exists []; by rewrite app_nil_r].
  rewrite _append_arg_outcome. apply append_outcome_extends.
Qed.

Lemma _visit_const_extends (target : Target) (node : decl) (st : arg_info) :
  exists added, snd (_visit_const target node st) = st ++ added.
Proof.
  unfold _visit_const, M_bind, M_lift.
  destruct (decl_subdecl node) as [sub|]; [|exists []; by rewrite app_nil_r].
  destruct (isinstance_RestrictPointer sub); [apply _visit_pointer_extends|].
  destruct (decl_dtype sub) as [dt|]; [|exists []; by rewrite app_nil_r].
  rewrite _append_arg_outcome. apply append_outcome_extends.
Qed.

Lemma visit_arg_extends (target : Target) (d : decl) (st : arg_info) :
  exists added, snd (visit_arg target d st) = st ++ added.
Proof.
  unfold visit_arg.
  destruct (isinstance_Const d); [apply _visit_const_extends|].
  destruct (isinstance_RestrictPointer d); [apply _visit_pointer_extends|].
  exists []. by rewrite app_nil_r.
Qed.

Lemma _visit_func_decl_extends (target : Target) (fd : FunctionDeclaration)
    (st : arg_info) :
  exists added, snd (_visit_func_decl target fd st) = st ++ added.
Proof.
  unfold _visit_func_decl. generalize (fd_arg_decls fd) as l.
  intros l; revert st; induction l as [|d l IH]; intros st; simpl.
  - exists []. by rewrite app_nil_r.
  - unfold M_bind. destruct (visit_arg_extends target d st) as [a1 H1].
    destruct (visit_arg target d st) as [[[]|e] st1]; simpl in H1; subst st1.
    + destruct (IH (st ++ a1)) as [a2 H2]. exists (a1 ++ a2).
      by rewrite H2, app_assoc.
    + by exists a1.
Qed.

Lemma invoke_method_arg_info (m : method) (self : CompiledCKernel) (w : world) :
  exists added,
    _arg_info (fst (snd (invoke_method m (self, w)))) = _arg_info self ++ added.
Proof.
  destruct m; simpl; unfold on_arg_info.
  - destruct (CompiledCKernel_call self args w). exists [].
    by rewrite app_nil_r.
  - destruct (append_outcome_extends (ck_target self) name dt pointer
                (_arg_info self)) as [a H].
    rewrite <- _append_arg_outcome in H.
    destruct (_append_arg _ _ _ _ _) as [r ai]. by exists a.
  - destruct (_visit_const_extends (ck_target self) node (_arg_info self))
      as [a H].
    destruct (_visit_const _ _ _) as [r ai]. by exists a.
  - destruct (_visit_pointer_extends (ck_target self) node (_arg_info self))
      as [a H].
    destruct (_visit_pointer _ _ _) as [r ai]. by exists a.
  - destruct (_visit_func_decl_extends (ck_target self) func_decl
                (_arg_info self)) as [a H].
    destruct (_visit_func_decl _ _ _) as [r ai]. by exists a.
Qed.

(** X8. No method of a bridge removes or changes an entry of [_arg_info]:
    after any sequence of method invocations, whether they return or
    raise, the list is the earlier list with entries added at the end. *)
Theorem arg_info_only_grows (ms : list method) (self : CompiledCKernel)
    (w : world) :
  exists added : arg_info,
    _arg_info (fst (invoke_methods ms (self, w))) = _arg_info self ++ added.
Proof.
  revert self w; induction ms as [|m ms IH]; intros self w.
  - exists []. simpl. by rewrite app_nil_r.
  - cbn [invoke_methods].
    destruct (invoke_method_arg_info m self w) as [a1 H1].
    destruct (invoke_method m (self, w)) as [r [self1 w1]].
    cbn [fst snd] in *. destruct (IH self1 w1) as [a2 H2].
    exists (a1 ++ a2). by rewrite H2, H1, app_assoc.
Qed.

(** ** CompiledCKernel.__call__ *)

(** X9. A call of the bridge has one of two outcomes.  Either it returns,
    and then the native function was entered exactly once, with one native
    value per parameter, each an instance of the type of its parameter; or
    it raises, and then the native function was not entered at all (the
    trace is as before). *)
Theorem call_enters_native_code_once_or_never (self : CompiledCKernel)
    (args : list pyarg) (w : world) :
  (exists args_ : list cdata,
     CompiledCKernel_call self args w
     = (Ok tt, EvNativeCall (fn_symbol (_fn self)) args_ :: w) /\
     Forall2 (fun c t => cdata_type c = t) args_ (fn_argtypes (_fn self)))
  \/
  (exists e : exn, CompiledCKernel_call self args w = (Raise e, w)).
Proof.
  destruct (marshal_args (zip args (fn_argtypes (_fn self))))
    as [args_|e] eqn:Hm; [|right; exists e; by apply call_marshal_error].
  destruct (decide (length (fn_argtypes (_fn self)) <= length args)%nat)
    as [Hle|Hgt].
  - left. exists args_. split; [by apply call_marshalled|].
    pose proof (marshal_args_types _ _ Hm) as Hty.
    by rewrite snd_zip in Hty.
  - right. exists TypeError.
    unfold CompiledCKernel_call, M_bind, M_lift. rewrite Hm.
    unfold CFuncPtr_call.
    rewrite (marshal_args_length _ _ Hm), length_zip_with.
    assert (Hlt : (length args `min` length (fn_argtypes (_fn self))
                   <? length (fn_argtypes (_fn self)))%nat = true)
      by (apply Nat.ltb_lt; lia).
    by rewrite Hlt.
Qed.

(** X10. A call with fewer arguments than the bridge has parameters never
    reaches the native function: when the given arguments all marshal, the
    function pointer refuses the call with [TypeError]. *)
Theorem too_few_arguments_rejected (self : CompiledCKernel)
    (args : list pyarg) (args_ : list cdata) (w : world) :
  (length args < length (fn_argtypes (_fn self)))%nat ->
  marshal_args (zip args (fn_argtypes (_fn self))) = Ok args_ ->
  CompiledCKernel_call self args w = (Raise TypeError, w).
Proof.
  intros Hlt Hm. unfold CompiledCKernel_call, M_bind, M_lift. rewrite Hm.
  unfold CFuncPtr_call.
  rewrite (marshal_args_length _ _ Hm), length_zip_with.
  assert (H : (length args `min` length (fn_argtypes (_fn self))
               <? length (fn_argtypes (_fn self)))%nat = true)
    by (apply Nat.ltb_lt; lia).
  by rewrite H.
Qed.

Lemma too_few_arguments_rejected_witness :
  CompiledCKernel_call sample_kernel
    [Array {| nd_size := 4; nd_data := 4096 |}] []
  = (Raise TypeError, []).
Proof.
  apply (too_few_arguments_rejected sample_kernel
           [Array {| nd_size := 4; nd_data := 4096 |}]
           [CCast (POINTER (Simple c_float)) 4096] []);
    [simpl; lia | reflexivity].
Defined.

Lemma marshal_arrays (arrs : list ndarray) (ts : list ctype) :
  length arrs = length ts ->
  Forall (fun a => nd_size a <> 0) arrs ->
  Forall (fun t => is_pointer_ctype t = true) ts ->
  marshal_args (zip (map Array arrs) ts)
  = Ok (zip_with (fun a t => CCast t (nd_data a)) arrs ts).
Proof.
  revert ts; induction arrs as [|a arrs IH]; intros [|t ts]; simpl; try done.
  intros [= Hlen] Ha Ht.
  apply Forall_cons in Ha as [Ha Harrs]. apply Forall_cons in Ht as [Ht Hts].
  apply Z.eqb_neq in Ha. rewrite Ha. unfold data_as. rewrite Ht.
  by rewrite (IH ts Hlen Harrs Hts).
Qed.

(** X11. When every parameter is a pointer and the call passes one
    non-empty array per parameter, the call returns and the native
    function receives, in order, the data address of each array itself,
    cast to the type of its parameter: nothing is copied or converted. *)
Theorem arrays_passed_by_address (self : CompiledCKernel)
    (arrs : list ndarray) (w : world) :
  length arrs = length (fn_argtypes (_fn self)) ->
  Forall (fun a => nd_size a <> 0) arrs ->
  Forall (fun t => is_pointer_ctype t = true) (fn_argtypes (_fn self)) ->
  CompiledCKernel_call self (map Array arrs) w
  = (Ok tt,
     EvNativeCall (fn_symbol (_fn self))
       (zip_with (fun a t => CCast t (nd_data a)) arrs
          (fn_argtypes (_fn self))) :: w).
Proof.
  intros Hlen Ha Ht. apply call_marshalled.
  - by apply marshal_arrays.
  - rewrite length_map. lia.
Qed.

Lemma arrays_passed_by_address_witness :
  CompiledCKernel_call sample_copy_kernel
    (map Array [ {| nd_size := 4; nd_data := 4096 |};
                 {| nd_size := 4; nd_data := 8192 |} ]) []
  = (Ok tt,
     [EvNativeCall "copy"
        [CCast (POINTER (Simple c_float)) 4096;
         CCast (POINTER (Simple c_float)) 8192]]).
Proof.
  apply (arrays_passed_by_address sample_copy_kernel
           [ {| nd_size := 4; nd_data := 4096 |};
             {| nd_size := 4; nd_data := 8192 |} ] []).
  - reflexivity.
  - repeat constructor; discriminate.
  - repeat constructor.
Defined.

(** ** CompiledCKernel.__init__: the order of the checks *)

Lemma comp_or_default_total (env : Collaborators) (comp : option CCompiler)
    (w : world) :
  exists (c : CCompiler) (w1 : world),
    comp_or_default env comp w = (Ok c, w1).
Proof.
  destruct comp as [c|]; [by exists c, w|].
  eexists _, _. apply CCompiler_init_total.
Qed.

Lemma toolchain_error_is_no_declaration_error (e : exn) :
  is_toolchain_error e = true -> is_declaration_error e = false.
Proof. by destruct e. Qed.

(** X12. The declaration is judged only after the source has been built:
    when construction raises one of the two errors of the module itself,
    the one for an unhandled parameter or the one for an unhandled return
    type, the build had run to its end and loaded the library, and its
    effects are all that construction leaves in the trace. *)
Theorem declaration_checked_after_build (env : Collaborators)
    (knl : DeviceProgram) (target : Target) (comp : option CCompiler)
    (w w' : world) (e : exn) :
  CompiledCKernel_init env knl target comp w = (Raise e, w') ->
  is_declaration_error e = true ->
  exists (c : CCompiler) (w1 : world) (dll : CDLL),
    comp_or_default env comp w = (Ok c, w1) /\
    build env c (dp_ast_str knl) w1 = (Ok dll, w').
Proof.
  intros Hinit He.
  destruct (comp_or_default_total env comp w) as (c & w1 & Hc).
  exists c, w1.
  unfold CompiledCKernel_init, M_bind, M_ret, M_lift, M_exec, M_raise in Hinit.
  destruct (is_CTarget target);
    [|inversion Hinit; subst; discriminate].
  rewrite Hc in Hinit.
  destruct (build env c (dp_ast_str knl) w1) as [[dll|e0] w2] eqn:Hb.
  - exists dll. split; [done|]. f_equal.
    destruct (dp_decls knl) as [|fd rest]; [by inversion Hinit|].
    destruct (_visit_func_decl target fd []) as [[[]|e1] ai];
      [|by inversion Hinit].
    simpl in Hinit.
    destruct (decl_typename (fd_subdecl fd)) as [r|e2]; [|by inversion Hinit].
    destruct (String.eqb r "void"); [|by inversion Hinit].
    destruct (CDLL_getattr dll (dp_name knl)); [|by inversion Hinit].
    destruct (forallb has_from_param (map snd ai)); by inversion Hinit.
  - inversion Hinit; subst.
    destruct (build_Raise_inv _ _ _ _ _ _ Hb) as [Htc _].
    apply toolchain_error_is_no_declaration_error in Htc. congruence.
Qed.

Lemma declaration_checked_after_build_witness :
  exists (c : CCompiler) (w1 : world) (dll : CDLL),
    comp_or_default (sample_env 0) (Some sample_compiler) [] = (Ok c, w1) /\
    build (sample_env 0) c (dp_ast_str (set_return_type "int" sample_program))
      w1
    = (Ok dll,
       snd (build (sample_env 0) sample_compiler
              (dp_ast_str sample_program) [])).
Proof.
  apply (declaration_checked_after_build (sample_env 0)
           (set_return_type "int" sample_program) sample_target
           (Some sample_compiler) [] _ (ValueError_unhandled_restype "int"));
    reflexivity.
Defined.

(** X13. A kernel whose name the loaded library does not export cannot be
    bound: with a valid declaration and a successful build, construction
    raises [AttributeError] for the name of the kernel. *)
Theorem missing_symbol_rejected (env : Collaborators) (knl : DeviceProgram)
    (target : Target) (comp : option CCompiler) (w w1 w2 : world)
    (c : CCompiler) (dll : CDLL) (fd : FunctionDeclaration)
    (rest : list FunctionDeclaration) (ai : arg_info) (fname : string) :
  is_CTarget target = true ->
  comp_or_default env comp w = (Ok c, w1) ->
  build env c (dp_ast_str knl) w1 = (Ok dll, w2) ->
  dp_decls knl = fd :: rest ->
  _visit_func_decl target fd [] = (Ok tt, ai) ->
  fd_subdecl fd = Value "void" fname ->
  dp_name knl ∉ dll_symbols dll ->
  CompiledCKernel_init env knl target comp w
  = (Raise (AttributeError (dp_name knl)), w2).
Proof.
  intros Ht Hc Hb Hd Hv Hs Hnot.
  rewrite (CompiledCKernel_init_steps env knl target comp w w1 w2 c dll fd
             rest ai Ht Hc Hb Hd Hv).
  rewrite Hs; simpl. unfold CDLL_getattr.
  by rewrite bool_decide_eq_false_2.
Qed.

Lemma missing_symbol_rejected_witness :
  CompiledCKernel_init (sample_env 0)
    {| dp_name := "other"; dp_ast_str := dp_ast_str sample_program;
       dp_decls := [sample_func_decl] |}
    sample_target (Some sample_compiler) []
  = (Raise (AttributeError "other"),
     snd (build (sample_env 0) sample_compiler (dp_ast_str sample_program) [])).
Proof.
  apply (missing_symbol_rejected (sample_env 0)
           {| dp_name := "other"; dp_ast_str := dp_ast_str sample_program;
              dp_decls := [sample_func_decl] |}
           sample_target (Some sample_compiler) [] [] _ sample_compiler
           {| dll_path := "/tmp/tmp_loopy/code.so"; dll_symbols := ["scale"] |}
           sample_func_decl []
           [("a", POINTER (Simple c_float)); ("n", Simple c_int)] "scale");
    try reflexivity.
  simpl. intros H. apply list_elem_of_singleton in H. discriminate.
Defined.

(** X14. A device program without any function declaration is refused with
    [IndexError], but only after its source has been compiled, linked and
    loaded. *)
Theorem no_declaration_rejected_after_build (env : Collaborators)
    (knl : DeviceProgram) (target : Target) (comp : option CCompiler)
    (w w1 w2 : world) (c : CCompiler) (dll : CDLL) :
  is_CTarget target = true ->
  comp_or_default env comp w = (Ok c, w1) ->
  build env c (dp_ast_str knl) w1 = (Ok dll, w2) ->
  dp_decls knl = [] ->
  CompiledCKernel_init env knl target comp w = (Raise IndexError, w2).
Proof.
  intros Ht Hc Hb Hd.
  unfold CompiledCKernel_init, M_bind, M_ret, M_lift.
  by rewrite Ht, Hc, Hb, Hd.
Qed.

Lemma no_declaration_rejected_after_build_witness :
  CompiledCKernel_init (sample_env 0)
    {| dp_name := "scale"; dp_ast_str := "int x;"; dp_decls := [] |}
    sample_target (Some sample_compiler) []
  = (Raise IndexError,
     snd (build (sample_env 0) sample_compiler "int x;" [])).
Proof.
  apply (no_declaration_rejected_after_build (sample_env 0)
           {| dp_name := "scale"; dp_ast_str := "int x;"; dp_decls := [] |}
           sample_target (Some sample_compiler) [] [] _ sample_compiler
           {| dll_path := "/tmp/tmp_loopy/code.so"; dll_symbols := ["scale"] |});
    reflexivity.
Defined.

(** ** CKernelExecutor *)

Section Executor.

Variable env : Collaborators.


Lemma kernel_info_keeps_executor (self self' : CKernelExecutor env)
    (key : list pykey) (r : result (KernelInfo env)) (w w' : world) :
  kernel_info env key (self, w) = (r, (self', w')) ->
  compiler env self' = compiler env self /\
  kernel_options env self' = kernel_options env self /\
  kernel_target env self' = kernel_target env self /\
  forall (key0 : list pykey) (info0 : KernelInfo env),
    _memoize_dic_kernel_info env self !! key0 = Some info0 ->
    _memoize_dic_kernel_info env self' !! key0 = Some info0.
Proof.
  unfold kernel_info.
  destruct (_memoize_dic_kernel_info env self !! key) as [info|] eqn:Hl.
  - by intros [= _ <- _].
  - destruct (bind_kernel_info_args key) as [a|]; [|by intros [= _ <- _]].
    destruct (kernel_info_body env self a w) as [[info|e] w1];
      [|by intros [= _ <- _]].
    intros [= _ <- _]. simpl. repeat split.
    intros key0 info0 H0. rewrite lookup_insert_ne; [done|]. congruence.
Qed.

(** X16. A call of the executor, whether it returns or raises, leaves the
    compiler, the options and the target of the executor as they were and
    never removes or replaces a memoized [_KernelInfo]: every entry of the
    dictionary before the call is in the dictionary after it, unchanged. *)
Theorem executor_call_keeps_entries (self self' : CKernelExecutor env)
    (args : list pyarg) (kw : kwargs) (r : result (Outputs env))
    (w w' : world) :
  CKernelExecutor_call env args kw (self, w) = (r, (self', w')) ->
  compiler env self' = compiler env self /\
  kernel_options env self' = kernel_options env self /\
  kernel_target env self' = kernel_target env self /\
  forall (key0 : list pykey) (info0 : KernelInfo env),
    _memoize_dic_kernel_info env self !! key0 = Some info0 ->
    _memoize_dic_kernel_info env self' !! key0 = Some info0.
Proof.
  unfold CKernelExecutor_call, M_bind, M_lift.
  destruct (packing_controller_unpack env kw) as [kw_|e];
    [|by intros [= _ <- _]].
  destruct (kernel_info env [arg_to_dtype_set env kw_] (self, w))
    as [[info|e] [self1 w1]] eqn:Hki.
  - unfold in_world.
    destruct (run_invoker env _ _ args kw_ w1) as [r2 w2].
    intros [= _ <- _]. by eapply kernel_info_keeps_executor.
  - intros [= _ <- _]. by eapply kernel_info_keeps_executor.
Qed.

(** X17. The dictionary is keyed by the arguments as they are passed, not
    by the values the parameters end up with: after [kernel_info(s)] has
    been computed, [kernel_info(s, None)], which spells the default of the
    second parameter out, is not answered from the dictionary (unless it
    was requested in this form before) but runs the method again for [s]. *)
Theorem default_spelled_out_is_another_key (self self1 : CKernelExecutor env)
    (s : pykey) (info : KernelInfo env) (w w1 : world) :
  _memoize_dic_kernel_info env self !! [s; KNone] = None ->
  kernel_info env [s] (self, w) = (Ok info, (self1, w1)) ->
  forall w2 : world,
    kernel_info env [s; KNone] (self1, w2)
    = match kernel_info_body env self1 s w2 with
      | (Ok info2, w3) =>
          (Ok info2,
           (set_memoize_dic env self1
              (<[ [s; KNone] := info2 ]> (_memoize_dic_kernel_info env self1)),
            w3))
      | (Raise e, w3) => (Raise e, (self1, w3))
      end.
Proof.
  intros Hnone Hfirst w2.
  destruct (kernel_info_Ok_cached _ _ _ _ _ _ _ Hfirst) as [_ Hother].
  apply kernel_info_miss; [|done].
  rewrite Hother; [done|]. congruence.
Qed.

End Executor.


Lemma executor_call_keeps_entries_witness :
  compiler _ (fst (snd (CKernelExecutor_call (sample_env 0) [] sample_kwargs
                          (sample_executor 0, []))))
  = compiler _ (sample_executor 0).
Proof.
  destruct (CKernelExecutor_call (sample_env 0) [] sample_kwargs
              (sample_executor 0, [])) as [r [self' w']] eqn:H.
  exact (proj1 (executor_call_keeps_entries (sample_env 0)
                  (sample_executor 0) self' [] sample_kwargs r [] w' H)).
Defined.

Lemma default_spelled_out_is_another_key_witness :
  kernel_info (sample_env 0) [sample_signature; KNone]
    (set_memoize_dic _ (sample_executor 0)
       (<[ [sample_signature] := sample_info ]> ∅), [])
  = match kernel_info_body (sample_env 0)
            (set_memoize_dic _ (sample_executor 0)
               (<[ [sample_signature] := sample_info ]> ∅))
            sample_signature [] with
    | (Ok info2, w3) =>
        (Ok info2,
         (set_memoize_dic _
            (set_memoize_dic _ (sample_executor 0)
               (<[ [sample_signature] := sample_info ]> ∅))
            (<[ [sample_signature; KNone] := info2 ]>
               (_memoize_dic_kernel_info _
                  (set_memoize_dic _ (sample_executor 0)
                     (<[ [sample_signature] := sample_info ]> ∅)))),
          w3))
    | (Raise e, w3) =>
        (Raise e,
         (set_memoize_dic _ (sample_executor 0)
            (<[ [sample_signature] := sample_info ]> ∅), w3))
    end.
Proof.
  apply (default_spelled_out_is_another_key (sample_env 0)
           (sample_executor 0) _ sample_signature sample_info []
           (EvCDLL "/tmp/tmp_loopy/code.so" :: sample_trace 0)
           (lookup_empty _) sample_first_request []).
Defined.

(** ** Building never runs a kernel *)

Lemma quiet_ret {A : Type} (a : A) : leaves_native_code_alone (M_ret a).
Proof. intros w. by exists []. Qed.

Lemma quiet_raise {A : Type} (e : exn) :
  leaves_native_code_alone (@M_raise world A e).
Proof. intros w. by exists []. Qed.

Lemma quiet_lift {A : Type} (r : result A) :
  leaves_native_code_alone (M_lift r).
Proof. intros w. by exists []. Qed.

Lemma quiet_emit {A : Type} (ev : event) (r : result A) :
  is_native_call_event ev = false -> leaves_native_code_alone (emit ev r).
Proof. intros H w. exists [ev]. split; [done | by constructor]. Qed.

Lemma quiet_bind {A B : Type} (m : M world A) (k : A -> M world B) :
  leaves_native_code_alone m -> (forall a, leaves_native_code_alone (k a)) ->
  leaves_native_code_alone (M_bind m k).
Proof.
  intros Hm Hk w. unfold M_bind. destruct (Hm w) as (evs & Hevs & Hq).
  destruct (m w) as [[a|e] w1]; simpl in Hevs; subst w1.
  - destruct (Hk a (evs ++ w)) as (evs' & Hevs' & Hq').
    exists (evs' ++ evs). split; [by rewrite Hevs', app_assoc|].
    by apply Forall_app.
  - by exists evs.
Qed.

Lemma quiet_exec {T A : Type} (m : M T A) (init : T) :
  leaves_native_code_alone (@M_exec world T A m init).
Proof.
  intros w. exists []. unfold M_exec. by destruct (m init) as [[a|e] t].
Qed.

Lemma quiet_map {A B : Type} (f : A -> M world B) (l : list A) :
  (forall a, leaves_native_code_alone (f a)) ->
  leaves_native_code_alone (M_map f l).
Proof.
  intros Hf. induction l as [|x l IH]; simpl; [apply quiet_ret|].
  apply quiet_bind; [apply Hf|]. intros y.
  apply quiet_bind; [apply IH|]. intros ys. apply quiet_ret.
Qed.

Create HintDb quiet.

#[local] Hint Resolve quiet_ret quiet_raise quiet_lift quiet_exec : quiet.

Ltac quiet_steps :=
  repeat first
    [ solve [auto with quiet]
    | apply quiet_bind; [|intros ?]
    | apply quiet_map; intros ?
    | apply quiet_emit; reflexivity ].

Section Quiet.

Variable env : Collaborators.

Lemma quiet_mkdtemp (prefix : string) :
  leaves_native_code_alone (tempfile_mkdtemp env prefix).
Proof. intros w. eexists [_]. split; [done | by repeat constructor]. Qed.

Lemma quiet_call (self : CCompiler) (args : list string) :
  leaves_native_code_alone (CCompiler__call env self args).
Proof.
  intros w. unfold CCompiler__call.
  destruct (os_subprocess env w (exe self :: args) (tempdir self)) as [code|];
    [destruct (code =? 0)|destruct (has_nul _ || existsb has_nul _)%bool];
    (eexists [_]; split; [done | by repeat constructor]).
Qed.

Lemma quiet_open_write (path content : string) :
  leaves_native_code_alone (open_write env path content).
Proof.
  intros w. unfold open_write. destruct (os_open_write env w path).
  - eexists [_]. split; [done | by repeat constructor].
  - destruct (has_nul path); [by exists []|].
    destruct (os_write_failure env w path content); [by exists []|].
    eexists [_]. split; [done | by repeat constructor].
Qed.

Lemma quiet_CDLL (path : string) :
  leaves_native_code_alone (ctypes_CDLL env path).
Proof.
  intros w. unfold ctypes_CDLL. destruct (os_dlopen env w path).
  - eexists [_]. split; [done | by repeat constructor].
  - destruct (has_nul path); by exists [].
Qed.

#[local] Hint Resolve quiet_mkdtemp quiet_call quiet_open_write quiet_CDLL
  : quiet.

Lemma quiet_CCompiler_init (cls : CompilerClass) (cc : option string)
    (cf lf : option (list string)) :
  leaves_native_code_alone (CCompiler_init env cls cc cf lf).
Proof. unfold CCompiler_init. quiet_steps. Qed.

Lemma quiet_comp_or_default (comp : option CCompiler) :
  leaves_native_code_alone (comp_or_default env comp).
Proof.
  destruct comp; simpl; [apply quiet_ret | apply quiet_CCompiler_init].
Qed.

Lemma quiet_build (self : CCompiler) (code : string) :
  leaves_native_code_alone (build env self code).
Proof. unfold build. quiet_steps. Qed.

#[local] Hint Resolve quiet_comp_or_default quiet_build : quiet.

Lemma quiet_CompiledCKernel_init (knl : DeviceProgram) (target : Target)
    (comp : option CCompiler) :
  leaves_native_code_alone (CompiledCKernel_init env knl target comp).
Proof.
  unfold CompiledCKernel_init. quiet_steps.
  - destruct (is_CTarget target); auto with quiet.
  - destruct (String.eqb _ "void"); auto with quiet.
  - destruct (forallb has_from_param _); auto with quiet.
Qed.

#[local] Hint Resolve quiet_CompiledCKernel_init : quiet.

Lemma quiet_kernel_info_body (self : CKernelExecutor env) (a : pykey) :
  leaves_native_code_alone (kernel_info_body env self a).
Proof.
  unfold kernel_info_body. quiet_steps.
  - destruct (write_cl_truthy _); [|auto with quiet].
    destruct (write_cl _); auto using quiet_emit with quiet.
  - destruct (edit_cl _); [|auto with quiet].
    intros w0. eexists [_]. split; [done | by repeat constructor].
Qed.

(** X18. Preparing never executes: constructing a compiler, building,
    constructing a bridge and computing a [_KernelInfo] (hence also a
    request to [kernel_info], memoized or not) only add events to the
    trace, and none of the events they add is a call of native code,
    whether they return or raise. *)
Theorem preparing_never_enters_native_code (self : CKernelExecutor env)
    (knl : DeviceProgram) (target : Target) (comp : option CCompiler)
    (key : list pykey) :
  leaves_native_code_alone (build env (compiler env self) (dp_ast_str knl)) /\
  leaves_native_code_alone (CompiledCKernel_init env knl target comp) /\
  no_native_call (fun w => snd (snd (kernel_info env key (self, w)))).
Proof.
  split; [apply quiet_build|]. split; [apply quiet_CompiledCKernel_init|].
  intros w. unfold kernel_info.
  destruct (_memoize_dic_kernel_info env self !! key) as [info|];
    [by exists []|].
  destruct (bind_kernel_info_args key) as [a|]; [|by exists []].
  destruct (quiet_kernel_info_body self a w) as (evs & Hevs & Hq).
  exists evs. split; [|done].
  by destruct (kernel_info_body env self a w) as [[info|e] w1].
Qed.

End Quiet.
